(** * Delfin: alert-source reconciliation and the HPE 3PAR alert handler

    A shallow embedding of
    - [delfin/api/v1/alert_source.py] (class [AlertSourceController]) and
    - [delfin/drivers/hpe/hpe_3par/alert_handler.py] (class [AlertHandler]),
    followed by the properties the design document states about them.

    Python dictionaries are finite maps from strings to dynamically typed
    values, exceptions are an explicit sum, and code that talks to the
    database, the RPC layer or the SSH client threads a state that records
    every such call. *)

From Stdlib Require Import String Ascii ZArith List Bool Lia.
From stdpp Require Import base option gmap strings list.

Local Open Scope string_scope.
Local Open Scope Z_scope.

(** ** Constants of [delfin.common.constants] *)

(** Modelled from the spec: the module [delfin/common/constants.py] is not
    part of the sources at hand.  The design document fixes the canonical
    vocabularies (severity, category, clear category, event type); they are
    opaque tokens here, distinct from every vendor string. *)
Module constants.

Module Severity.
Inductive t :=
  CRITICAL | MAJOR | MINOR | WARNING | FATAL | INFORMATIONAL
| NOT_SPECIFIED.
#[global] Instance severity_eq_dec : EqDecision t.
Proof. solve_decision. Defined.
End Severity.

Module Category.
Inductive t := FAULT | RECOVERY | NOT_SPECIFIED.
#[global] Instance category_eq_dec : EqDecision t.
Proof. solve_decision. Defined.
End Category.

Module ClearType.
Inductive t := AUTOMATIC | MANUAL.
#[global] Instance clear_type_eq_dec : EqDecision t.
Proof. solve_decision. Defined.
End ClearType.

Module EventType.
Inductive t := EQUIPMENT_ALARM.
#[global] Instance event_type_eq_dec : EqDecision t.
Proof. solve_decision. Defined.
End EventType.

Inductive resource_type := DEFAULT_RESOURCE_TYPE.
#[global] Instance resource_type_eq_dec : EqDecision resource_type.
Proof. solve_decision. Defined.

End constants.

(** ** Python values, dictionaries and exceptions *)

Inductive value :=
| VNone
| VStr (s : string)
| VInt (n : Z)
| VSeverity (s : constants.Severity.t)
| VCategory (c : constants.Category.t)
| VClearType (c : constants.ClearType.t)
| VEventType (e : constants.EventType.t)
| VResourceType (r : constants.resource_type).

#[global] Instance value_eq_dec : EqDecision value.
Proof. solve_decision. Defined.

(** [a == b]; objects of different types are never equal. *)
Definition py_eq (a b : value) : bool := bool_decide (a = b).

(** Truth value of an object in a condition ([if v], [not v]). *)
Definition truthy (v : value) : bool :=
  match v with
  | VNone => false
  | VStr s => negb (String.eqb s "")
  | VInt n => negb (Z.eqb n 0)
  | _ => true
  end.

Abbreviation dict := (gmap string value).

(** [d.get(k)] and [d.get(k, dflt)]. *)
Definition get_default (d : dict) (k : string) (dflt : value) : value :=
  match d !! k with
  | Some v => v
  | None => dflt
  end.

Definition get (d : dict) (k : string) : value := get_default d k VNone.

Inductive exn :=
| InvalidInput (msg : string)
| InvalidResults (msg : string)
| StorageBackendException (reason : string)
| AlertSourceNotFound (storage_id : string)
| StorageNotFound (storage_id : string)
| KeyError (key : string)
| IndexError
| AttributeError
| TypeError
| ValueError
| OverflowError
| OtherError (what : string).

(** [except exception.AlertSourceNotFound] catches this exception only. *)
Definition is_AlertSourceNotFound (e : exn) : bool :=
  match e with
  | AlertSourceNotFound _ => true
  | _ => false
  end.

Inductive result (A : Type) :=
| Ok (a : A)
| Raise (e : exn).
Arguments Ok {A} a.
Arguments Raise {A} e.

(** [d[k]] on a dictionary. *)
Definition subscript (d : dict) (k : string) : result value :=
  match d !! k with
  | Some v => Ok v
  | None => Raise (KeyError k)
  end.

(** ** Computations that may raise and that change a state *)

Definition M (S A : Type) : Type := S -> result A * S.

Definition ret {S A : Type} (a : A) : M S A := fun s => (Ok a, s).

Definition raise {S A : Type} (e : exn) : M S A := fun s => (Raise e, s).

Definition bind {S A B : Type} (m : M S A) (k : A -> M S B) : M S B :=
  fun s =>
    match m s with
    | (Ok a, s') => k a s'
    | (Raise e, s') => (Raise e, s')
    end.

Definition lift {S A : Type} (r : result A) : M S A := fun s => (r, s).

(** [try: body  except Exception as e: handler e]; whatever the body did to
    the state before it raised stays done. *)
Definition try_except {S A : Type} (body : M S A) (handler : exn -> M S A)
  : M S A :=
  fun s =>
    match body s with
    | (Ok a, s') => (Ok a, s')
    | (Raise e, s') => handler e s'
    end.

Definition modify {S : Type} (f : S -> S) : M S unit := fun s => (Ok tt, f s).

Definition gets {S A : Type} (f : S -> A) : M S A := fun s => (Ok (f s), s).

Declare Scope py_scope.
Delimit Scope py_scope with py.
Notation "x <- c ;; k" := (bind c (fun x => k))
  (at level 100, c at next level, right associativity) : py_scope.

(** The same for code without state. *)
Definition rbind {A B : Type} (r : result A) (k : A -> result B) : result B :=
  match r with
  | Ok a => k a
  | Raise e => Raise e
  end.

Definition rtry {A : Type} (body : result A) (handler : exn -> result A)
  : result A :=
  match body with
  | Ok a => Ok a
  | Raise e => handler e
  end.

(** [for x in xs: body x], where the body may raise. *)
Fixpoint for_in {A : Type} (xs : list A) (body : A -> result unit)
  : result unit :=
  match xs with
  | [] => Ok tt
  | x :: rest => rbind (body x) (fun _ => for_in rest body)
  end.

(** ** Python string methods *)

Definition lower_ascii (c : ascii) : ascii :=
  let n := nat_of_ascii c in
  if (Nat.leb 65 n && Nat.leb n 90)%bool then ascii_of_nat (n + 32) else c.

(** [s.lower()]. *)
Fixpoint lower (s : string) : string :=
  match s with
  | EmptyString => EmptyString
  | String c rest => String (lower_ascii c) (lower rest)
  end.

Definition newline : ascii := ascii_of_nat 10.
Definition space : ascii := ascii_of_nat 32.

(** [s.split('\n')]: never empty, the pieces hold no newline. *)
Fixpoint split_lines (s : string) : list string :=
  match s with
  | EmptyString => [EmptyString]
  | String c rest =>
      if Ascii.eqb c newline then EmptyString :: split_lines rest
      else match split_lines rest with
           | first :: others => String c first :: others
           | [] => [String c EmptyString]
           end
  end.

(** The text after the first [n] characters. *)
Fixpoint drop_chars (n : nat) (s : string) : string :=
  match n, s with
  | O, _ => s
  | S n', String _ rest => drop_chars n' rest
  | S _, EmptyString => EmptyString
  end.

(** [s.startswith(pre)]. *)
Fixpoint starts_with (pre s : string) : bool :=
  match pre, s with
  | EmptyString, _ => true
  | String a pre', String b s' => Ascii.eqb a b && starts_with pre' s'
  | String _ _, EmptyString => false
  end.

(** The text before and after the first occurrence of [sep]. *)
Fixpoint partition_at (sep s : string) : option (string * string) :=
  if starts_with sep s then Some (EmptyString, drop_chars (String.length sep) s)
  else match s with
       | EmptyString => None
       | String c rest =>
           match partition_at sep rest with
           | Some (before, after) => Some (String c before, after)
           | None => None
           end
       end.

(** [s.split(sep, 1)]. *)
Definition split_once (sep s : string) : list string :=
  match partition_at sep s with
  | Some (before, after) => [before; after]
  | None => [s]
  end.

(** [s.replace(" ", "")]. *)
Fixpoint remove_spaces (s : string) : string :=
  match s with
  | EmptyString => EmptyString
  | String c rest =>
      if Ascii.eqb c space then remove_spaces rest
      else String c (remove_spaces rest)
  end.

(** [xs[i]] on a list. *)
Definition index {A : Type} (xs : list A) (i : nat) : result A :=
  match xs !! i with
  | Some x => Ok x
  | None => Raise IndexError
  end.

Declare Scope res_scope.
Delimit Scope res_scope with res.
Notation "x <- c ;; k" := (rbind c (fun x => k))
  (at level 100, c at next level, right associativity) : res_scope.

(** [m.get(k, dflt)] on a table with string keys, at any key object. *)
Definition table_get {A : Type} (m : gmap string A) (k : value) (dflt : A)
  : A :=
  match k with
  | VStr s => match m !! s with
              | Some a => a
              | None => dflt
              end
  | _ => dflt
  end.

(** [for x in xs: body], where the body updates local variables [St] and may
    raise. *)
Fixpoint for_fold {A St : Type} (xs : list A) (body : St -> A -> result St)
  (st : St) : result St :=
  match xs with
  | [] => Ok st
  | x :: rest => rbind (body st x) (fun st' => for_fold rest body st')
  end.

(** ** The collaborators that are not part of these sources *)

(** Python's [time] module: [time.strptime] yields a broken-down time or
    raises, [time.mktime] turns it into seconds since the epoch in the local
    time zone (a float without fractional part) or raises. *)
Record struct_time := {
  tm_year : Z; tm_mon : Z; tm_mday : Z;
  tm_hour : Z; tm_min : Z; tm_sec : Z
}.

Class TimeModule := {
  strptime : value -> string -> result struct_time;
  mktime : struct_time -> result Z
}.

(** An SSH client: [doexec(context, command)] returns the output of the
    command or raises.  The state of the driver's methods is the list of
    commands sent so far. *)
Record SSHClient := { run_command : string -> result value }.

Definition doexec (client : SSHClient) (command_str : string)
  : M (list string) value :=
  fun sent => (run_command client command_str, (sent ++ [command_str])%list).

(** ** [delfin/drivers/hpe/hpe_3par/alert_handler.py] *)

Module AlertHandler.

Import constants.

Definition SEVERITY_MAP : gmap string Severity.t :=
  list_to_map
    [("critical", Severity.CRITICAL);
     ("major", Severity.MAJOR);
     ("minor", Severity.MINOR);
     ("degraded", Severity.WARNING);
     ("fatal", Severity.FATAL);
     ("info", Severity.INFORMATIONAL);
     ("debug", Severity.NOT_SPECIFIED)].

Definition CATEGORY_MAP : gmap string Category.t :=
  list_to_map
    [("undefined", Category.NOT_SPECIFIED);
     ("new", Category.FAULT);
     ("acknowledged", Category.RECOVERY);
     ("fixed", Category.RECOVERY);
     ("removed", Category.RECOVERY);
     ("autofixed", Category.RECOVERY)].

Definition _mandatory_alert_attributes : list string :=
  ["component"; "details"; "nodeID"; "severity"; "timeOccurred"; "id";
   "messageCode"; "state"; "serialNumber"].

Definition hpe3par_command_removealert : string := "removealert -f ".
Definition HPE3PAR_COMMAND_SHOWALERT : string := "showalert -d".
Definition TIME_PATTERN : string := "%Y-%m-%d %H:%M:%S CST".

Record handler := { sshclient : option SSHClient }.

Section WithTime.
Context `{TimeModule}.

Definition get_time_stamp (time_str : value) : result value :=
  rtry
    (match time_str with
     | VNone => Ok VNone
     | _ =>
         (time_array <- strptime time_str TIME_PATTERN ;;
          seconds <- mktime time_array ;;
          Ok (VInt (seconds * 1000)))%res
     end)
    (fun e => Ok VNone).

Definition mandatory_missing_msg (attr : string) : string :=
  "Mandatory information " ++ attr ++ " missing in alert message. ".

Definition parse_alert (alert : dict) : result dict :=
  (_ <- for_in _mandatory_alert_attributes
          (fun attr =>
             if negb (truthy (get alert attr))
             then Raise (InvalidInput (mandatory_missing_msg attr))
             else Ok tt) ;;
   rtry
     (occur <- get_time_stamp (get alert "timeOccurred") ;;
      let alert_model : dict :=
        list_to_map
          [("alert_id", get alert "messageCode");
           ("alert_name", get alert "messageCode");
           ("severity",
             VSeverity (table_get SEVERITY_MAP (get alert "severity")
                          Severity.NOT_SPECIFIED));
           ("category",
             VCategory (table_get CATEGORY_MAP (get alert "state")
                          Category.NOT_SPECIFIED));
           ("type", VEventType EventType.EQUIPMENT_ALARM);
           ("sequence_number", get alert "id");
           ("occur_time", occur);
           ("description", get alert "details");
           ("resource_type", VResourceType DEFAULT_RESOURCE_TYPE);
           ("location", get alert "component")] in
      Ok (if py_eq (get alert "state") (VStr "autofixed")
          then <["clear_category" := VClearType ClearType.AUTOMATIC]>
                 alert_model
          else alert_model))
     (fun e =>
        Raise (InvalidResults
                 "Failed to build alert model as some attributes missing in alert message.")))%res.

Definition clear_alert (client : option SSHClient) (alert : option dict)
  : M (list string) string :=
  try_except
    (match alert, client with
     | Some _, Some c =>
         (_ <- doexec c hpe3par_command_removealert ;;
          ret "Success")%py
     | _, _ => ret "Failed"
     end)
    (fun e => raise (StorageBackendException "Failed to ssh Hpe3parStor")).

(** The local variables of the loop of [list_alerts]. *)
Record locals := {
  alert_list : list dict;
  message_code : value;
  event_type : value;
  severity : value;
  state : value;
  alarm_id : value;
  occur_time : value;
  alert_message : value;
  component : value
}.

Definition initial_locals : locals :=
  {| alert_list := []; message_code := VStr ""; event_type := VStr "";
     severity := VStr ""; state := VStr ""; alarm_id := VStr "";
     occur_time := VStr ""; alert_message := VStr "";
     component := VStr "" |}.

Definition set_message_code (v : value) (l : locals) : locals :=
  {| alert_list := alert_list l; message_code := v;
     event_type := event_type l; severity := severity l;
     state := state l; alarm_id := alarm_id l;
     occur_time := occur_time l; alert_message := alert_message l;
     component := component l |}.

Definition set_event_type (v : value) (l : locals) : locals :=
  {| alert_list := alert_list l; message_code := message_code l;
     event_type := v; severity := severity l;
     state := state l; alarm_id := alarm_id l;
     occur_time := occur_time l; alert_message := alert_message l;
     component := component l |}.

Definition set_severity (v : value) (l : locals) : locals :=
  {| alert_list := alert_list l; message_code := message_code l;
     event_type := event_type l; severity := v;
     state := state l; alarm_id := alarm_id l;
     occur_time := occur_time l; alert_message := alert_message l;
     component := component l |}.

Definition set_state (v : value) (l : locals) : locals :=
  {| alert_list := alert_list l; message_code := message_code l;
     event_type := event_type l; severity := severity l;
     state := v; alarm_id := alarm_id l;
     occur_time := occur_time l; alert_message := alert_message l;
     component := component l |}.

Definition set_alarm_id (v : value) (l : locals) : locals :=
  {| alert_list := alert_list l; message_code := message_code l;
     event_type := event_type l; severity := severity l;
     state := state l; alarm_id := v;
     occur_time := occur_time l; alert_message := alert_message l;
     component := component l |}.

Definition set_occur_time (v : value) (l : locals) : locals :=
  {| alert_list := alert_list l; message_code := message_code l;
     event_type := event_type l; severity := severity l;
     state := state l; alarm_id := alarm_id l;
     occur_time := v; alert_message := alert_message l;
     component := component l |}.

Definition set_alert_message (v : value) (l : locals) : locals :=
  {| alert_list := alert_list l; message_code := message_code l;
     event_type := event_type l; severity := severity l;
     state := state l; alarm_id := alarm_id l;
     occur_time := occur_time l; alert_message := v;
     component := component l |}.

Definition set_component (v : value) (l : locals) : locals :=
  {| alert_list := alert_list l; message_code := message_code l;
     event_type := event_type l; severity := severity l;
     state := state l; alarm_id := alarm_id l;
     occur_time := occur_time l; alert_message := alert_message l;
     component := v |}.

(** The [Severity] branch: an if/elif chain without a final else. *)
Definition cli_severity (label : string) (current : value) : value :=
  if String.eqb label "Major" then VSeverity Severity.MAJOR
  else if String.eqb label "Minor" then VSeverity Severity.MINOR
  else if String.eqb label "Critical" then VSeverity Severity.CRITICAL
  else if String.eqb label "Degraded" then VSeverity Severity.WARNING
  else if String.eqb label "Fatal" then VSeverity Severity.FATAL
  else if String.eqb label "Informational"
       then VSeverity Severity.INFORMATIONAL
  else if String.eqb label "Debug" then VSeverity Severity.NOT_SPECIFIED
  else current.

(** The [State] branch: only [New] is recognised. *)
Definition cli_state (label : string) (current : value) : value :=
  if String.eqb label "New" then VCategory Category.FAULT else current.

(** One round of [for alertinfo in alertlist]. *)
Definition list_alerts_line (l : locals) (alertinfo : string)
  : result locals :=
  let strline := alertinfo in
  if negb (String.eqb strline "") then
    let strinfo := split_once ": " strline in
    let strinfo := alter remove_spaces 0%nat strinfo in
    (key <- index strinfo 0 ;;
     if String.eqb key "Id" then
       v <- index strinfo 1 ;; Ok (set_alarm_id (VStr v) l)
     else if String.eqb key "State" then
       v <- index strinfo 1 ;; Ok (set_state (cli_state v (state l)) l)
     else if String.eqb key "MessageCode" then
       v <- index strinfo 1 ;; Ok (set_message_code (VStr v) l)
     else if String.eqb key "Time" then
       v <- index strinfo 1 ;; Ok (set_occur_time (VStr v) l)
     else if String.eqb key "Severity" then
       v <- index strinfo 1 ;;
       Ok (set_severity (cli_severity v (severity l)) l)
     else if String.eqb key "Type" then
       v <- index strinfo 1 ;; Ok (set_event_type (VStr v) l)
     else if String.eqb key "Message" then
       v <- index strinfo 1 ;; Ok (set_alert_message (VStr v) l)
     else if String.eqb key "Component" then
       v <- index strinfo 1 ;;
       let l := set_component (VStr v) l in
       occur <- get_time_stamp (occur_time l) ;;
       let alert_model : dict :=
         list_to_map
           [("alert_id", message_code l);
            ("alert_name", event_type l);
            ("severity", severity l);
            ("category", state l);
            ("type", VEventType EventType.EQUIPMENT_ALARM);
            ("sequence_number", alarm_id l);
            ("occur_time", occur);
            ("description", alert_message l);
            ("resource_type", VResourceType DEFAULT_RESOURCE_TYPE);
            ("location", component l)] in
       Ok {| alert_list := (alert_list l ++ [alert_model])%list;
             message_code := VStr ""; event_type := VStr "";
             severity := VStr ""; state := VStr ""; alarm_id := VStr "";
             occur_time := VStr ""; alert_message := VStr "";
             component := VStr "" |}
     else Ok l)%res
  else Ok l.

(** [reslist.split('\n')] on whatever the client returned. *)
Definition split_output (reslist : value) : result (list string) :=
  match reslist with
  | VStr text => Ok (split_lines text)
  | _ => Raise AttributeError
  end.

Definition list_alerts (self : handler) : M (list string) (list dict) :=
  try_except
    (reslist <-
       try_except
         (match sshclient self with
          | Some c => doexec c HPE3PAR_COMMAND_SHOWALERT
          | None => raise AttributeError
          end)
         (fun e =>
            raise (StorageBackendException "Failed to ssh Hpe3parStor")) ;;
     alertlist <- lift (split_output reslist) ;;
     l <- lift (for_fold alertlist list_alerts_line initial_locals) ;;
     ret (alert_list l))%py
    (fun err =>
       raise (StorageBackendException
                "Failed to get pool metrics from Hpe3parStor")).

End WithTime.

End AlertHandler.

(** ** The collaborators of the alert-source controller *)

(** [delfin.cryptor]: the two directions of the secret encoding. *)
Class Cryptor := {
  cryptor_encode : value -> result value;
  cryptor_decode : value -> result value
}.

(** [delfin.api.validation.snmp_validator]: the format check of an engine id
    and the live connectivity check, which hands back the alert source. *)
Class SnmpValidator := {
  validate_engine_id : value -> result unit;
  validate_connectivity : dict -> value -> value -> result dict
}.

(** [delfin.api.views.alert_source]. *)
Class AlertView := {
  build_alert_source : dict -> result dict
}.

(** [delfin.alert_manager.rpcapi.AlertAPI]: the answer of the remote side to
    [sync_snmp_config(ctx, snmp_config_to_del, snmp_config_to_add)]. *)
Class AlertAPI := {
  sync_answer : option dict -> option dict -> result unit
}.

(** Calls that leave the controller, in the order they are made. *)
Inductive event :=
| EvConnectivity (alert_source : dict) (plain_auth_key plain_priv_key : value)
| EvDbCreate (values : dict)
| EvDbUpdate (storage_id : string) (values : dict)
| EvDbDelete (storage_id : string)
| EvSync (snmp_config_to_del snmp_config_to_add : option dict).

(** The registered storages, the persisted alert sources by storage id, and
    the calls made so far. *)
Record world := {
  storages : gset string;
  alert_sources : gmap string dict;
  calls : list event
}.

Definition log (e : event) (w : world) : world :=
  {| storages := storages w; alert_sources := alert_sources w;
     calls := (calls w ++ [e])%list |}.

Definition set_alert_sources (f : gmap string dict -> gmap string dict)
  (w : world) : world :=
  {| storages := storages w; alert_sources := f (alert_sources w);
     calls := calls w |}.

(** [try: body  except <these exceptions>: handler]. *)
Definition try_except_only {S A : Type} (caught : exn -> bool)
  (body : M S A) (handler : exn -> M S A) : M S A :=
  fun s =>
    match body s with
    | (Ok a, s') => (Ok a, s')
    | (Raise e, s') => if caught e then handler e s' else (Raise e, s')
    end.

(** [v.lower()] on an object that may not be a string. *)
Definition py_lower (v : value) : result string :=
  match v with
  | VStr s => Ok (lower s)
  | _ => Raise AttributeError
  end.

(** Modelled from the spec: the persistence layer [delfin.db] is an external
    collaborator.  A persisted alert source is kept per storage id; reading
    a missing one raises [AlertSourceNotFound]; update overwrites the given
    columns of the existing row, create adds a row under the storage id of
    the values; a column that was never set reads as [None]. *)
Module db.

Definition storage_get (id : string) : M world unit :=
  fun w =>
    if bool_decide (id ∈ storages w) then (Ok tt, w)
    else (Raise (StorageNotFound id), w).

Definition alert_source_get (storage_id : string) : M world dict :=
  fun w =>
    match alert_sources w !! storage_id with
    | Some row => (Ok row, w)
    | None => (Raise (AlertSourceNotFound storage_id), w)
    end.

Definition alert_source_create (values : dict) : M world dict :=
  fun w =>
    match get values "storage_id" with
    | VStr key =>
        match alert_sources w !! key with
        | None =>
            (Ok values,
             log (EvDbCreate values)
               (set_alert_sources (insert key values) w))
        | Some _ => (Raise (OtherError "DBDuplicateEntry"), w)
        end
    | _ => (Raise (OtherError "DBError"), w)
    end.

Definition alert_source_update (storage_id : string) (values : dict)
  : M world dict :=
  fun w =>
    match alert_sources w !! storage_id with
    | Some row =>
        let row' : dict := values ∪ row in
        (Ok row',
         log (EvDbUpdate storage_id values)
           (set_alert_sources (insert storage_id row') w))
    | None => (Raise (AlertSourceNotFound storage_id), w)
    end.

Definition alert_source_delete (storage_id : string) : M world unit :=
  fun w =>
    match alert_sources w !! storage_id with
    | Some _ =>
        (Ok tt,
         log (EvDbDelete storage_id)
           (set_alert_sources (delete storage_id) w))
    | None => (Raise (AlertSourceNotFound storage_id), w)
    end.

End db.

(** ** [delfin/api/v1/alert_source.py] *)

Module AlertSourceController.

Definition SNMPv3_keys : list string :=
  ["username"; "auth_key"; "security_level"; "auth_protocol";
   "privacy_protocol"; "privacy_key"; "engine_id"].

Section WithCollaborators.
Context `{Cryptor} `{SnmpValidator} `{AlertView} `{AlertAPI}.

Definition sync_snmp_config (to_del to_add : option dict)
  : M world unit :=
  fun w => (sync_answer to_del to_add, log (EvSync to_del to_add) w).

Definition check_connectivity (alert_source : dict)
  (plain_auth_key plain_priv_key : value) : M world dict :=
  fun w =>
    (validate_connectivity alert_source plain_auth_key plain_priv_key,
     log (EvConnectivity alert_source plain_auth_key plain_priv_key) w).

Definition msg_v3_required : string :=
  "If snmp version is SNMPv3, then username, security_level and engine_id are required.".
Definition msg_auth_required : string :=
  "If snmp version is SNMPv3 and security_level is AuthPriv or AuthNoPriv, auth_protocol and auth_key are required.".
Definition msg_priv_required : string :=
  "If snmp version is SNMPv3 and security_level is AuthPriv, privacy_protocol and privacy_key are  required.".
Definition msg_community_required : string :=
  "If snmp version is SNMPv1 or SNMPv2c, community_string is required.".

Definition _input_check (alert_source : dict) : M world dict :=
  (let version := get alert_source "version" in
   lowered <- lift (py_lower version) ;;
   checked <-
     (if String.eqb lowered "snmpv3" then
        let user_name := get alert_source "username" in
        let security_level := get alert_source "security_level" in
        let engine_id := get alert_source "engine_id" in
        _ <- lift (validate_engine_id engine_id) ;;
        if negb (truthy user_name) || negb (truthy security_level)
           || negb (truthy engine_id)
        then raise (InvalidInput msg_v3_required)
        else
          checked <-
            (if py_eq security_level (VStr "AuthNoPriv")
                || py_eq security_level (VStr "AuthPriv")
             then
               let auth_protocol := get alert_source "auth_protocol" in
               let auth_key := get alert_source "auth_key" in
               if negb (truthy auth_protocol) || negb (truthy auth_key)
               then raise (InvalidInput msg_auth_required)
               else
                 plain_auth_key <- lift (subscript alert_source "auth_key") ;;
                 encoded <- lift (cryptor_encode plain_auth_key) ;;
                 let alert_source := <["auth_key" := encoded]> alert_source in
                 if py_eq security_level (VStr "AuthPriv") then
                   let privacy_protocol :=
                     get alert_source "privacy_protocol" in
                   let privacy_key := get alert_source "privacy_key" in
                   if negb (truthy privacy_protocol)
                      || negb (truthy privacy_key)
                   then raise (InvalidInput msg_priv_required)
                   else
                     plain_priv_key <-
                       lift (subscript alert_source "privacy_key") ;;
                     encoded <- lift (cryptor_encode plain_priv_key) ;;
                     ret (<["privacy_key" := encoded]> alert_source,
                          plain_auth_key, plain_priv_key)
                 else
                   ret (<["privacy_protocol" := VNone]>
                          (<["privacy_key" := VNone]> alert_source),
                        plain_auth_key, VNone)
             else
               ret (<["privacy_protocol" := VNone]>
                      (<["privacy_key" := VNone]>
                         (<["auth_protocol" := VNone]>
                            (<["auth_key" := VNone]> alert_source))),
                    VNone, VNone)) ;;
          let '(alert_source, plain_auth_key, plain_priv_key) :=
            checked in
          ret (<["community_string" := VNone]> alert_source,
               plain_auth_key, plain_priv_key)
      else
        let community_string :=
          get_default alert_source "community_string" VNone in
        if negb (truthy community_string)
        then raise (InvalidInput msg_community_required)
        else
          ret (foldl (fun d k => <[k := VNone]> d) alert_source
                 SNMPv3_keys,
               VNone, VNone)) ;;
   let '(alert_source, plain_auth_key, plain_priv_key) := checked in
   check_connectivity alert_source plain_auth_key plain_priv_key)%py.

Definition _get_snmp_config_brief (storage_id : string)
  : M world (option dict) :=
  try_except_only is_AlertSourceNotFound
    (alert_source <- db.alert_source_get storage_id ;;
     let snmp_config : dict :=
       list_to_map [("storage_id", get alert_source "storage_id");
                    ("version", get alert_source "version")] in
     version <- lift (subscript snmp_config "version") ;;
     lowered <- lift (py_lower version) ;;
     if String.eqb lowered "snmpv3" then
       ret (Some (<["engine_id" := get alert_source "engine_id"]>
                    (<["username" := get alert_source "username"]>
                       snmp_config)))
     else ret (Some snmp_config))%py
    (fun _ => ret None).

Definition put (id : string) (body : dict) : M world dict :=
  (let alert_source := body in
   let alert_source := <["storage_id" := VStr id]> alert_source in
   _ <- db.storage_get id ;;
   alert_source <- _input_check alert_source ;;
   snmp_config_to_del <- _get_snmp_config_brief id ;;
   alert_source <-
     match snmp_config_to_del with
     | Some _ => db.alert_source_update id alert_source
     | None => db.alert_source_create alert_source
     end ;;
   let snmp_config_to_add := alert_source in
   _ <- sync_snmp_config snmp_config_to_del (Some snmp_config_to_add) ;;
   lift (build_alert_source alert_source))%py.

Definition show (id : string) : M world dict :=
  (alert_source <- db.alert_source_get id ;;
   lift (build_alert_source alert_source))%py.

Definition delete (id : string) : M world unit :=
  (snmp_config_to_del <- _get_snmp_config_brief id ;;
   match snmp_config_to_del with
   | Some _ =>
       _ <- sync_snmp_config snmp_config_to_del None ;;
       db.alert_source_delete id
   | None => raise (AlertSourceNotFound id)
   end)%py.

Definition _decrypt_auth_key (alert_source : dict) : result dict :=
  (let auth_key := get_default alert_source "auth_key" VNone in
   let privacy_key := get_default alert_source "privacy_key" VNone in
   alert_source <-
     (if truthy auth_key then
        decoded <- cryptor_decode auth_key ;;
        Ok (<["auth_key" := decoded]> alert_source)
      else Ok alert_source) ;;
   alert_source <-
     (if truthy privacy_key then
        decoded <- cryptor_decode privacy_key ;;
        Ok (<["privacy_key" := decoded]> alert_source)
      else Ok alert_source) ;;
   Ok alert_source)%res.

End WithCollaborators.

End AlertSourceController.

(** ** Vocabulary of the design document *)

Module Design.

(** A field is missing or empty: it is absent from the mapping, or its
    value is an empty object ([None], the empty string, zero). *)
Definition missing_or_empty (alert : dict) (attr : string) : Prop :=
  alert !! attr = None \/ alert !! attr = Some VNone
  \/ alert !! attr = Some (VStr "") \/ alert !! attr = Some (VInt 0).

(** One round of the loop over the mandatory attributes. *)
Definition mandatory_check (alert : dict) (attr : string) : result unit :=
  if negb (truthy (get alert attr))
  then Raise (InvalidInput (AlertHandler.mandatory_missing_msg attr))
  else Ok tt.

(** The keys that the listing of alerts knows. *)
Definition recognised_keys : list string :=
  ["Id"; "State"; "MessageCode"; "Time"; "Severity"; "Type"; "Message";
   "Component"].

(** The key of a line: the text before the first [": "], blanks removed. *)
Definition line_key (line : string) : string :=
  match split_once ": " line with
  | k :: _ => remove_spaces k
  | [] => ""
  end.

(** The line has the shape [Key: Value]. *)
Definition has_value (line : string) : bool :=
  match split_once ": " line with
  | [_; _] => true
  | _ => false
  end.

(** A line that names no recognised key, with or without a value. *)
Definition unrecognised (line : string) : bool :=
  String.eqb line "" || negb (bool_decide (line_key line ∈ recognised_keys)).

(** The line that closes a record: [Component: <location>]. *)
Definition terminal_line (line : string) : bool :=
  has_value line && String.eqb (line_key line) "Component".

(** A line inside a record: blank or [Key: Value], and not the closing
    one. *)
Definition inner_line (line : string) : bool :=
  (String.eqb line "" || has_value line) && negb (terminal_line line).

(** The value of a line [Key: Value]: the text after the first [": "]. *)
Definition line_value (line : string) : string :=
  match split_once ": " line with
  | [_; v] => v
  | _ => ""
  end.

(** A line that a record may hold before its closing line: a blank line, a
    line of noise that names no recognised key, with or without a value, or
    a line [Key: Value] other than the closing one. *)
Definition body_line (line : string) : bool :=
  (unrecognised line || has_value line) && negb (terminal_line line).

(** A record block of the command output. *)
Record block := { body : list string; terminal : string }.

Definition block_lines (b : block) : list string := body b ++ [terminal b].

Definition complete (b : block) : bool :=
  forallb body_line (body b) && terminal_line (terminal b).

(** The local variables after a flush that left the alerts [alerts]. *)
Definition flushed (alerts : list dict) : AlertHandler.locals :=
  {| AlertHandler.alert_list := alerts;
     AlertHandler.message_code := VStr "";
     AlertHandler.event_type := VStr "";
     AlertHandler.severity := VStr "";
     AlertHandler.state := VStr "";
     AlertHandler.alarm_id := VStr "";
     AlertHandler.occur_time := VStr "";
     AlertHandler.alert_message := VStr "";
     AlertHandler.component := VStr "" |}.

(** The same local variables with the alerts [earlier] listed first. *)
Definition with_earlier (earlier : list dict) (l : AlertHandler.locals)
  : AlertHandler.locals :=
  {| AlertHandler.alert_list := (earlier ++ AlertHandler.alert_list l)%list;
     AlertHandler.message_code := AlertHandler.message_code l;
     AlertHandler.event_type := AlertHandler.event_type l;
     AlertHandler.severity := AlertHandler.severity l;
     AlertHandler.state := AlertHandler.state l;
     AlertHandler.alarm_id := AlertHandler.alarm_id l;
     AlertHandler.occur_time := AlertHandler.occur_time l;
     AlertHandler.alert_message := AlertHandler.alert_message l;
     AlertHandler.component := AlertHandler.component l |}.

(** The severity labels of the command output and what they stand for. *)
Definition cli_severity_labels : list (string * constants.Severity.t) :=
  [("Major", constants.Severity.MAJOR);
   ("Minor", constants.Severity.MINOR);
   ("Critical", constants.Severity.CRITICAL);
   ("Degraded", constants.Severity.WARNING);
   ("Fatal", constants.Severity.FATAL);
   ("Informational", constants.Severity.INFORMATIONAL);
   ("Debug", constants.Severity.NOT_SPECIFIED)].

(** *** The alert of a record block *)

(** The line gives a value to the key [key]. *)
Definition gives (key line : string) : bool :=
  has_value line && String.eqb (line_key line) key.

(** The values that the lines give to [key], in the order of the lines. *)
Definition values_of (key : string) (lines : list string) : list string :=
  map line_value (List.filter (gives key) lines).

(** A field of a record: the last value that its lines give to the key, the
    empty string when they give none. *)
Definition field_of (key : string) (lines : list string) : string :=
  default "" (last (values_of key lines)).

(** What a label stands for in a table of labels. *)
Fixpoint assoc {A : Type} (label : string) (table : list (string * A))
  : option A :=
  match table with
  | [] => None
  | (l, a) :: rest => if String.eqb label l then Some a else assoc label rest
  end.

(** The severity of a record: what the last [Severity] line with a known
    label stands for, the empty string when there is none. *)
Definition severity_of (lines : list string) : value :=
  default (VStr "")
    (last (map VSeverity
             (omap (fun label => assoc label cli_severity_labels)
                (values_of "Severity" lines)))).

(** The category of a record: [FAULT] when one of its [State] lines says
    [New], the empty string otherwise. *)
Definition category_of (lines : list string) : value :=
  if existsb (fun label => String.eqb label "New") (values_of "State" lines)
  then VCategory constants.Category.FAULT
  else VStr "".

Section Records.
Context `{TimeModule}.

(** The time of a record in milliseconds, null when the text is not a time
    of the pattern or cannot be converted. *)
Definition time_of (text : string) : value :=
  match strptime (VStr text) AlertHandler.TIME_PATTERN with
  | Ok time_array =>
      match mktime time_array with
      | Ok seconds => VInt (seconds * 1000)
      | Raise _ => VNone
      end
  | Raise _ => VNone
  end.

(** The alert of a record block: every field is read from the lines of the
    block and from nothing else; a field that the block does not set is
    empty. *)
Definition alert_of_block (b : block) : dict :=
  list_to_map
    [("alert_id", VStr (field_of "MessageCode" (body b)));
     ("alert_name", VStr (field_of "Type" (body b)));
     ("severity", severity_of (body b));
     ("category", category_of (body b));
     ("type", VEventType constants.EventType.EQUIPMENT_ALARM);
     ("sequence_number", VStr (field_of "Id" (body b)));
     ("occur_time", time_of (field_of "Time" (body b)));
     ("description", VStr (field_of "Message" (body b)));
     ("resource_type", VResourceType constants.DEFAULT_RESOURCE_TYPE);
     ("location", VStr (line_value (terminal b)))].

End Records.

(** The local variables of the listing after the alerts [alerts] and, since
    the last flush, the lines [lines]. *)
Definition gathered (alerts : list dict) (lines : list string)
  : AlertHandler.locals :=
  {| AlertHandler.alert_list := alerts;
     AlertHandler.message_code := VStr (field_of "MessageCode" lines);
     AlertHandler.event_type := VStr (field_of "Type" lines);
     AlertHandler.severity := severity_of lines;
     AlertHandler.state := category_of lines;
     AlertHandler.alarm_id := VStr (field_of "Id" lines);
     AlertHandler.occur_time := VStr (field_of "Time" lines);
     AlertHandler.alert_message := VStr (field_of "Message" lines);
     AlertHandler.component := VStr "" |}.

(** The minimal identity of a persisted alert source: storage id and
    version, and for SNMPv3 also user name and engine id. *)
Definition brief_of (row : dict) : dict :=
  let brief : dict :=
    list_to_map [("storage_id", get row "storage_id");
                 ("version", get row "version")] in
  match get row "version" with
  | VStr version =>
      if String.eqb (lower version) "snmpv3"
      then <["engine_id" := get row "engine_id"]>
             (<["username" := get row "username"]> brief)
      else brief
  | _ => brief
  end.

Section FieldRequirements.
Context `{SnmpValidator}.

(** The field requirements of an alert source: a version other than SNMPv3
    needs a community string; SNMPv3 needs a well-formed engine id, a user
    name and a security level, with AuthNoPriv also the authentication
    protocol and key, with AuthPriv those and the privacy protocol and
    key. *)
Definition structurally_valid (alert_source : dict) : bool :=
  match get alert_source "version" with
  | VStr version =>
      if String.eqb (lower version) "snmpv3" then
        let level := get alert_source "security_level" in
        let with_auth :=
          py_eq level (VStr "AuthNoPriv") || py_eq level (VStr "AuthPriv") in
        let with_priv := py_eq level (VStr "AuthPriv") in
        match validate_engine_id (get alert_source "engine_id") with
        | Ok _ =>
            truthy (get alert_source "username")
            && truthy level
            && truthy (get alert_source "engine_id")
            && (negb with_auth
                || truthy (get alert_source "auth_protocol")
                   && truthy (get alert_source "auth_key"))
            && (negb with_priv
                || truthy (get alert_source "privacy_protocol")
                   && truthy (get alert_source "privacy_key"))
        | Raise _ => false
        end
      else truthy (get alert_source "community_string")
  | _ => false
  end.

End FieldRequirements.

(** The secret fields and the key of a record. *)
Definition kept_fields : list string :=
  ["storage_id"; "auth_key"; "privacy_key"; "community_string"].

(** Field [k] of [stored] is null, or it is the encoding of the value that
    [given] has for it. *)
Definition encoded_or_null `{Cryptor} (given stored : dict) (k : string)
  : Prop :=
  stored !! k = Some VNone
  \/ exists plain encoded,
      given !! k = Some plain
      /\ cryptor_encode plain = Ok encoded
      /\ stored !! k = Some encoded.

(** Field [k] of [stored] is null, or it is the non-empty value that [given]
    has for it, as it is. *)
Definition unchanged_or_null (given stored : dict) (k : string) : Prop :=
  stored !! k = Some VNone
  \/ exists plain,
      given !! k = Some plain
      /\ truthy plain = true
      /\ stored !! k = Some plain.

End Design.

(** ** Sample collaborators and inputs

    Concrete stand-ins for the external collaborators, used to run the
    embedding on examples. *)

Module Samples.

Import constants.

(** *** A clock in the zone UTC+8 reading zero-padded time stamps *)

Definition digit_of (c : ascii) : option Z :=
  let n := nat_of_ascii c in
  if (Nat.leb 48 n && Nat.leb n 57)%bool then Some (Z.of_nat (n - 48))
  else None.

(** Reads exactly [n] decimal digits. *)
Fixpoint read_digits (n : nat) (acc : Z) (s : string)
  : option (Z * string) :=
  match n, s with
  | O, _ => Some (acc, s)
  | S n', String c rest =>
      match digit_of c with
      | Some d => read_digits n' (10 * acc + d) rest
      | None => None
      end
  | S _, EmptyString => None
  end.

(** Consumes the literal text [lit]. *)
Definition expect (lit s : string) : option string :=
  if starts_with lit s then Some (drop_chars (String.length lit) s)
  else None.

Definition is_leap (y : Z) : bool :=
  ((y mod 4 =? 0) && negb (y mod 100 =? 0) || (y mod 400 =? 0))%bool.

Definition days_in_month (y m : Z) : Z :=
  if m =? 2 then (if is_leap y then 29 else 28)
  else if (m =? 4) || (m =? 6) || (m =? 9) || (m =? 11) then 30
  else 31.

Definition in_range (lo x hi : Z) : bool := ((lo <=? x) && (x <=? hi))%bool.

Definition read_time_stamp (s : string) : option struct_time :=
  '(y, s) ← read_digits 4 0 s;
  s ← expect "-" s;
  '(mo, s) ← read_digits 2 0 s;
  s ← expect "-" s;
  '(d, s) ← read_digits 2 0 s;
  s ← expect " " s;
  '(h, s) ← read_digits 2 0 s;
  s ← expect ":" s;
  '(mi, s) ← read_digits 2 0 s;
  s ← expect ":" s;
  '(sec, s) ← read_digits 2 0 s;
  s ← expect " CST" s;
  if (String.eqb s "" && in_range 1 y 9999 && in_range 1 mo 12
      && in_range 1 d (days_in_month y mo) && in_range 0 h 23
      && in_range 0 mi 59 && in_range 0 sec 61)%bool
  then Some {| tm_year := y; tm_mon := mo; tm_mday := d;
               tm_hour := h; tm_min := mi; tm_sec := sec |}
  else None.

Definition sample_strptime (v : value) (fmt : string) : result struct_time :=
  match v with
  | VStr s =>
      if String.eqb fmt AlertHandler.TIME_PATTERN then
        match read_time_stamp s with
        | Some t => Ok t
        | None => Raise ValueError
        end
      else Raise ValueError
  | _ => Raise TypeError
  end.

(** Days from 1970-01-01 to the given civil date. *)
Definition days_from_civil (y m d : Z) : Z :=
  let y := if m <=? 2 then y - 1 else y in
  let era := y / 400 in
  let yoe := y - era * 400 in
  let mp := if 2 <? m then m - 3 else m + 9 in
  let doy := (153 * mp + 2) / 5 + d - 1 in
  let doe := yoe * 365 + yoe / 4 - yoe / 100 + doy in
  era * 146097 + doe - 719468.

Definition sample_mktime (t : struct_time) : result Z :=
  Ok (days_from_civil (tm_year t) (tm_mon t) (tm_mday t) * 86400
      + tm_hour t * 3600 + tm_min t * 60 + tm_sec t - 8 * 3600).

Definition clock : TimeModule :=
  {| strptime := sample_strptime; mktime := sample_mktime |}.

(** A clock on which every conversion fails. *)
Definition broken_clock : TimeModule :=
  {| strptime := fun _ _ => Raise ValueError;
     mktime := fun _ => Raise OverflowError |}.

(** *** SSH clients *)

Definition nl : string := String newline EmptyString.

(** [lines] joined by newlines, the inverse of [split_lines]. *)
Fixpoint join_lines (lines : list string) : string :=
  match lines with
  | [] => ""
  | [l] => l
  | l :: rest => l ++ nl ++ join_lines rest
  end.

(** A client that answers every command with the same text. *)
Definition client_saying (text : string) : SSHClient :=
  {| run_command := fun _ => Ok (VStr text) |}.

Definition dead_client : SSHClient :=
  {| run_command := fun _ => Raise (OtherError "SSHConnectTimeout") |}.

Definition handler_saying (text : string) : AlertHandler.handler :=
  {| AlertHandler.sshclient := Some (client_saying text) |}.

Definition two_alerts_output : string :=
  join_lines
    ["Id: 1";
     "State: New";
     "MessageCode: 0x2200de";
     "Time: 2020-08-10 10:23:45 CST";
     "Severity: Major";
     "Type: Disk fail alert";
     "Message: Disk 7 failed";
     "Component: sw_pd:7";
     "";
     "Id: 2";
     "State: New";
     "MessageCode: 0x0270001";
     "Time: 2020-08-11 01:02:03 CST";
     "Severity: Degraded";
     "Type: Cage log event";
     "Message: Cage 1 degraded";
     "Component: hw_cage:1";
     ""].

Definition two_alerts_blocks : list Design.block :=
  [{| Design.body :=
        ["Id: 1"; "State: New"; "MessageCode: 0x2200de";
         "Time: 2020-08-10 10:23:45 CST"; "Severity: Major";
         "Type: Disk fail alert"; "Message: Disk 7 failed"];
      Design.terminal := "Component: sw_pd:7" |};
   {| Design.body :=
        [""; "Id: 2"; "State: New"; "MessageCode: 0x0270001";
         "Time: 2020-08-11 01:02:03 CST"; "Severity: Degraded";
         "Type: Cage log event"; "Message: Cage 1 degraded"];
      Design.terminal := "Component: hw_cage:1" |}].







Definition sample_trap : dict :=
  list_to_map
    [("component", VStr "sw_pd:7");
     ("details", VStr "Disk 7 failed");
     ("nodeID", VStr "0");
     ("severity", VStr "major");
     ("timeOccurred", VStr "2020-08-10 10:23:45 CST");
     ("id", VStr "1");
     ("messageCode", VStr "0x2200de");
     ("state", VStr "autofixed");
     ("serialNumber", VStr "1307327")].

(** *** Collaborators of the alert-source controller *)

(** A reversible encoding that marks the text. *)
Definition tag_cryptor : Cryptor :=
  {| cryptor_encode := fun v =>
       match v with
       | VStr s => Ok (VStr ("enc:" ++ s))
       | _ => Raise TypeError
       end;
     cryptor_decode := fun v =>
       match v with
       | VStr s =>
           if starts_with "enc:" s then Ok (VStr (drop_chars 4 s))
           else Raise ValueError
       | _ => Raise TypeError
       end |}.

Definition reachable : SnmpValidator :=
  {| validate_engine_id := fun _ => Ok tt;
     validate_connectivity := fun alert_source _ _ => Ok alert_source |}.

Definition unreachable : SnmpValidator :=
  {| validate_engine_id := fun _ => Ok tt;
     validate_connectivity := fun _ _ _ =>
       Raise (OtherError "SNMPConnectionFailed") |}.

Definition plain_view : AlertView :=
  {| build_alert_source := fun d => Ok d |}.

Definition healthy_rpc : AlertAPI :=
  {| sync_answer := fun _ _ => Ok tt |}.

Definition world0 : world :=
  {| storages := {["S1"]}; alert_sources := ∅; calls := [] |}.

Definition v2c_body : dict :=
  list_to_map [("version", VStr "SNMPv2c");
               ("community_string", VStr "public")].

Definition v3_body : dict :=
  list_to_map [("version", VStr "SNMPv3");
               ("username", VStr "u");
               ("security_level", VStr "AuthPriv");
               ("engine_id", VStr "E1");
               ("auth_protocol", VStr "MD5");
               ("auth_key", VStr "k1");
               ("privacy_protocol", VStr "DES");
               ("privacy_key", VStr "k2")].

(** A first PUT with SNMPv2c, then a second one with SNMPv3. *)
Definition sample_put (id : string) (body : dict) : M world dict :=
  @AlertSourceController.put tag_cryptor reachable plain_view healthy_rpc
    id body.

Definition world1 : world := snd (sample_put "S1" v2c_body world0).

Definition world2 : world := snd (sample_put "S1" v3_body world1).

(** The alerts that the listing returns on the sample clock for a client
    that prints [text], none when the call raises. *)
Definition listed (text : string) : list dict :=
  match fst (@AlertHandler.list_alerts clock (handler_saying text) []) with
  | Ok alerts => alerts
  | Raise _ => []
  end.

Definition alert_at (n : nat) (text : string) : dict :=
  nth n (listed text) ∅.

(** The model that [parse_alert] builds on the sample clock, empty when the
    call raises. *)
Definition parsed (alert : dict) : dict :=
  match @AlertHandler.parse_alert clock alert with
  | Ok model => model
  | Raise _ => ∅
  end.

(** The records that the two sample PUTs hand to the connectivity check. *)
Definition checked_v2c : dict :=
  list_to_map [("storage_id", VStr "S1");
               ("version", VStr "SNMPv2c");
               ("community_string", VStr "public");
               ("username", VNone);
               ("auth_key", VNone);
               ("security_level", VNone);
               ("auth_protocol", VNone);
               ("privacy_protocol", VNone);
               ("privacy_key", VNone);
               ("engine_id", VNone)].

Definition checked_v3 : dict :=
  list_to_map [("storage_id", VStr "S1");
               ("version", VStr "SNMPv3");
               ("community_string", VNone);
               ("username", VStr "u");
               ("auth_key", VStr "enc:k1");
               ("security_level", VStr "AuthPriv");
               ("auth_protocol", VStr "MD5");
               ("privacy_protocol", VStr "DES");
               ("privacy_key", VStr "enc:k2");
               ("engine_id", VStr "E1")].

(** The row persisted for a storage, empty when there is none. *)
Definition stored (id : string) (w : world) : dict :=
  match alert_sources w !! id with
  | Some row => row
  | None => ∅
  end.

(** The view that a call returned, empty when it raised. *)
Definition returned (outcome : result dict * world) : dict :=
  match fst outcome with
  | Ok view => view
  | Raise _ => ∅
  end.

End Samples.

(** ** Vocabulary of the further properties *)

Module Edge.

Import constants.

(** A line of the command output that is blank or has the shape
    [Key: Value]. *)
Definition field_line (line : string) : bool :=
  String.eqb line "" || Design.has_value line.

(** The text holds no [": "]. *)
Definition no_separator (k : string) : bool :=
  match partition_at ": " k with
  | None => true
  | Some _ => false
  end.

(** The shape of a listed alert: the ten keys of the model, the fixed type
    and resource type, text in the text fields, a time stamp that is null or
    a number, a severity and a category that are empty or canonical. *)
Definition listed_keys : list string :=
  ["alert_id"; "alert_name"; "severity"; "category"; "type";
   "sequence_number"; "occur_time"; "description"; "resource_type";
   "location"].

Definition is_text (v : value) : Prop := exists s, v = VStr s.

Definition is_time (v : value) : Prop := v = VNone \/ exists n, v = VInt n.

Definition is_listed_severity (v : value) : Prop :=
  v = VStr "" \/ exists s, v = VSeverity s.

Definition is_listed_category (v : value) : Prop :=
  v = VStr "" \/ v = VCategory Category.FAULT.

Definition listed_shape (a : dict) : Prop :=
  (forall k, is_Some (a !! k) <-> In k listed_keys)
  /\ a !! "type" = Some (VEventType EventType.EQUIPMENT_ALARM)
  /\ a !! "resource_type" = Some (VResourceType DEFAULT_RESOURCE_TYPE)
  /\ (forall k, In k ["alert_id"; "alert_name"; "sequence_number";
                      "description"; "location"] ->
                exists s, a !! k = Some (VStr s))
  /\ (exists v, a !! "occur_time" = Some v /\ is_time v)
  /\ (exists v, a !! "severity" = Some v /\ is_listed_severity v)
  /\ (exists v, a !! "category" = Some v /\ is_listed_category v).

(** The accumulators of the listing hold what the branches put there. *)
Definition typed_locals (l : AlertHandler.locals) : Prop :=
  is_text (AlertHandler.message_code l)
  /\ is_text (AlertHandler.event_type l)
  /\ is_listed_severity (AlertHandler.severity l)
  /\ is_listed_category (AlertHandler.state l)
  /\ is_text (AlertHandler.alarm_id l)
  /\ is_text (AlertHandler.occur_time l)
  /\ is_text (AlertHandler.alert_message l)
  /\ is_text (AlertHandler.component l).

(** *** The record that the check of the input passes on *)

Section Checked.
Context `{Cryptor} `{SnmpValidator}.

(** Field [k] of the checked record is the encoding of the non-empty value
    that the request has for it, and [plain] is that value. *)
Definition encoded_field (a a0 : dict) (k : string) (plain : value)
  : Prop :=
  plain = get a k
  /\ truthy plain = true
  /\ exists encoded,
      cryptor_encode plain = Ok encoded /\ a0 !! k = Some encoded.

(** Field [k] is the non-empty value of the request, as it is. *)
Definition passed_field (a a0 : dict) (k : string) : Prop :=
  a0 !! k = a !! k /\ truthy (get a k) = true.

(** For a version other than SNMPv3: the community string is passed as it
    is, every SNMPv3 field is null and no plain key goes with the
    record. *)
Definition checked_community (a a0 : dict) (pa pp : value) : Prop :=
  pa = VNone /\ pp = VNone
  /\ passed_field a a0 "community_string"
  /\ forall k, In k AlertSourceController.SNMPv3_keys -> a0 !! k = Some VNone.

(** For SNMPv3: the community string is null; user name, security level
    and engine id are passed; with AuthPriv both keys are encoded, with
    AuthNoPriv the authentication key is encoded and the privacy fields are
    null, with any other level all four are null; the plain keys go with
    the record. *)
Definition checked_usm (a a0 : dict) (pa pp : value) : Prop :=
  a0 !! "community_string" = Some VNone
  /\ validate_engine_id (get a "engine_id") = Ok tt
  /\ passed_field a a0 "username"
  /\ passed_field a a0 "security_level"
  /\ passed_field a a0 "engine_id"
  /\ if py_eq (get a "security_level") (VStr "AuthPriv") then
       passed_field a a0 "auth_protocol"
       /\ encoded_field a a0 "auth_key" pa
       /\ passed_field a a0 "privacy_protocol"
       /\ encoded_field a a0 "privacy_key" pp
     else if py_eq (get a "security_level") (VStr "AuthNoPriv") then
       passed_field a a0 "auth_protocol"
       /\ encoded_field a a0 "auth_key" pa
       /\ pp = VNone
       /\ a0 !! "privacy_protocol" = Some VNone
       /\ a0 !! "privacy_key" = Some VNone
     else
       pa = VNone /\ pp = VNone
       /\ a0 !! "auth_protocol" = Some VNone
       /\ a0 !! "auth_key" = Some VNone
       /\ a0 !! "privacy_protocol" = Some VNone
       /\ a0 !! "privacy_key" = Some VNone.

(** The version of the request is SNMPv3, in any case of letters. *)
Definition is_v3 (a : dict) : Prop :=
  exists version, get a "version" = VStr version
                  /\ lower version = "snmpv3".

Definition checked (a a0 : dict) (pa pp : value) : Prop :=
  (forall k, ~ In k ("community_string" :: AlertSourceController.SNMPv3_keys)
             -> a0 !! k = a !! k)
  /\ (exists version, get a "version" = VStr version)
  /\ ((is_v3 a /\ checked_usm a a0 pa pp)
      \/ (~ is_v3 a /\ checked_community a a0 pa pp)).

(** What the check of the input does in any state, given its outcome
    [outcome]: it raises, or it calls the connectivity check. *)
Definition after_check (outcome : result (dict * value * value))
  : M world dict :=
  fun w =>
    match outcome with
    | Raise e => (Raise e, w)
    | Ok (a0, pa, pp) =>
        (validate_connectivity a0 pa pp, log (EvConnectivity a0 pa pp) w)
    end.

End Checked.

(** What a PUT writes for the record [a'] that the connectivity check
    handed back: the key, the row, the old brief configuration and the
    database call; nothing when reading the old configuration or creating
    the row raises. *)
Definition written (id : string) (a' : dict) (rows : gmap string dict)
  : option (string * dict * option dict * event) :=
  match rows !! id with
  | Some old =>
      match get old "version" with
      | VStr _ =>
          Some (id, a' ∪ old, Some (Design.brief_of old), EvDbUpdate id a')
      | _ => None
      end
  | None =>
      match get a' "storage_id" with
      | VStr key =>
          match rows !! key with
          | None => Some (key, a', None, EvDbCreate a')
          | Some _ => None
          end
      | _ => None
      end
  end.

(** The state that a PUT leaves, given the outcome of the check of its
    input: unchanged when the storage is not registered or the check
    raises; with the connectivity call alone when that call or the steps
    before the write raise; with the connectivity call, the write and the
    sync otherwise. *)
Definition put_state `{SnmpValidator}
  (outcome : result (dict * value * value)) (id : string) (w : world)
  : world :=
  if bool_decide (id ∈ storages w) then
    match outcome with
    | Raise _ => w
    | Ok (a0, pa, pp) =>
        match validate_connectivity a0 pa pp with
        | Raise _ => log (EvConnectivity a0 pa pp) w
        | Ok a' =>
            match written id a' (alert_sources w) with
            | None => log (EvConnectivity a0 pa pp) w
            | Some (key, row, to_del, db_call) =>
                {| storages := storages w;
                   alert_sources := <[key := row]> (alert_sources w);
                   calls := (calls w
                             ++ [EvConnectivity a0 pa pp; db_call;
                                 EvSync to_del (Some row)])%list |}
            end
        end
    end
  else w.

(** Two lines that differ at most in the blanks of the key: the same line,
    or [Key: Value] lines with the same value whose keys agree once the
    blanks are removed. *)
Definition same_but_blanks (line line' : string) : Prop :=
  line' = line
  \/ exists k v,
      no_separator k = true
      /\ line = k ++ ": " ++ v
      /\ line' = remove_spaces k ++ ": " ++ v.

(** A severity line with a label that the listing does not know, or a state
    line with a state other than [New]. *)
Definition unknown_label_line (line : string) : Prop :=
  (exists label,
      line = "Severity: " ++ label
      /\ forall c, ~ In (label, c) Design.cli_severity_labels)
  \/ (exists label, line = "State: " ++ label /\ label <> "New").

End Edge.

(** ** More sample inputs *)

Module MoreSamples.

(** The same record with and without a blank in a key. *)
Definition spaced_record_output : string :=
  Samples.join_lines
    ["Id: 1"; "Message Code: 0x2200de"; "Component: sw_pd:7"].

Definition tight_record_output : string :=
  Samples.join_lines
    ["Id: 1"; "MessageCode: 0x2200de"; "Component: sw_pd:7"].

(** A record with a second severity line of an unknown label, and the same
    record without it. *)
Definition bogus_severity_output : string :=
  Samples.join_lines
    ["Id: 1"; "Severity: Major"; "Severity: Bogus"; "Component: sw_pd:7"].

Definition major_severity_output : string :=
  Samples.join_lines ["Id: 1"; "Severity: Major"; "Component: sw_pd:7"].

(** The two sample records with the line that counts them at the end. *)
Definition counted_output : string :=
  Samples.two_alerts_output ++ Samples.nl ++ "2 alerts".

(** A third PUT, back to SNMPv2c, over the SNMPv3 row. *)
Definition world3 : world :=
  snd (Samples.sample_put "S1" Samples.v2c_body Samples.world2).

(** The sample SNMPv3 request as the controller sees it. *)
Definition v3_request : dict := <["storage_id" := VStr "S1"]> Samples.v3_body.

(** The state after deleting the sample alert source. *)
Definition world_deleted : world :=
  snd (@AlertSourceController.delete Samples.healthy_rpc "S1" Samples.world2).

End MoreSamples.

(** * Properties *)

(** Splits a goal into its conjuncts and leaves every other goal alone. *)
Ltac conjuncts := repeat match goal with |- _ /\ _ => split end.

(** ** Python objects *)

Lemma truthy_false_iff (v : value) :
  truthy v = false <-> v = VNone \/ v = VStr "" \/ v = VInt 0.
Proof.
  destruct v as [ | s | n | | | | | ]; simpl; split;
    try (intros; discriminate); try (intros [? | [? | ?]]; discriminate);
    try tauto.
  - intros Hs. right; left. f_equal.
    apply String.eqb_eq. now destruct (String.eqb s "").
  - intros [? | [Hs | ?]]; try discriminate. injection Hs as ->. reflexivity.
  - intros Hn. right; right. f_equal.
    apply Z.eqb_eq. now destruct (Z.eqb n 0).
  - intros [? | [? | Hn]]; try discriminate. injection Hn as ->. reflexivity.
Qed.

Lemma get_missing_or_empty (alert : dict) (attr : string) :
  truthy (get alert attr) = false <-> Design.missing_or_empty alert attr.
Proof.
  unfold get, get_default, Design.missing_or_empty.
  rewrite truthy_false_iff.
  destruct (alert !! attr) as [v|]; split.
  - intros [-> | [-> | ->]]; auto.
  - intros [? | [? | [? | ?]]]; try discriminate; simplify_eq; auto.
  - auto.
  - auto.
Qed.

Lemma get_insert_eq (d : dict) (k : string) (v : value) :
  get (<[k := v]> d) k = v.
Proof. unfold get, get_default. now rewrite lookup_insert_eq. Qed.

Lemma get_insert_ne (d : dict) (k k' : string) (v : value) :
  k <> k' -> get (<[k := v]> d) k' = get d k'.
Proof. intros Hne. unfold get, get_default. now rewrite lookup_insert_ne. Qed.

Lemma get_delete_eq (d : dict) (k : string) : get (delete k d) k = VNone.
Proof. unfold get, get_default. now rewrite lookup_delete_eq. Qed.

Lemma get_delete_ne (d : dict) (k k' : string) :
  k <> k' -> get (delete k d) k' = get d k'.
Proof. intros Hne. unfold get, get_default. now rewrite lookup_delete_ne. Qed.

(** ** Time stamps *)

Section TimeStamps.
Context `{TimeModule}.

Lemma get_time_stamp_total (time_str : value) :
  exists v, AlertHandler.get_time_stamp time_str = Ok v
            /\ (v = VNone \/ exists n, v = VInt n).
Proof.
  unfold AlertHandler.get_time_stamp.
  destruct time_str; simpl; eauto;
    (destruct (strptime _ _) as [ta|]; simpl; [|eauto];
     destruct (mktime ta); simpl; eauto).
Qed.

(** C9: a time stamp accepted by [time.strptime] under the pattern
    [%Y-%m-%d %H:%M:%S CST] comes back as the epoch time of [time.mktime]
    in milliseconds; a string that does not parse, a time that cannot be
    converted and a missing time stamp come back as [None]; in every case
    the call returns and does not raise. *)
Theorem C9_get_time_stamp (time_str : value) :
  (forall ta seconds,
      time_str <> VNone ->
      strptime time_str "%Y-%m-%d %H:%M:%S CST" = Ok ta ->
      mktime ta = Ok seconds ->
      AlertHandler.get_time_stamp time_str = Ok (VInt (seconds * 1000)))
  /\ (forall e,
         strptime time_str "%Y-%m-%d %H:%M:%S CST" = Raise e ->
         AlertHandler.get_time_stamp time_str = Ok VNone)
  /\ (forall ta e,
         strptime time_str "%Y-%m-%d %H:%M:%S CST" = Ok ta ->
         mktime ta = Raise e ->
         AlertHandler.get_time_stamp time_str = Ok VNone)
  /\ AlertHandler.get_time_stamp VNone = Ok VNone
  /\ (exists v, AlertHandler.get_time_stamp time_str = Ok v
                /\ (v = VNone \/ exists n, v = VInt n)).
Proof.
  change "%Y-%m-%d %H:%M:%S CST" with AlertHandler.TIME_PATTERN.
  repeat split.
  - intros ta seconds Hnone Hparse Hmk.
    unfold AlertHandler.get_time_stamp.
    destruct time_str; try congruence; simpl; rewrite Hparse; simpl;
      rewrite Hmk; reflexivity.
  - intros e Hparse. unfold AlertHandler.get_time_stamp.
    destruct time_str; simpl; try reflexivity; rewrite Hparse; reflexivity.
  - intros ta e Hparse Hmk. unfold AlertHandler.get_time_stamp.
    destruct time_str; simpl; try reflexivity; rewrite Hparse; simpl;
      rewrite Hmk; reflexivity.
  - apply get_time_stamp_total.
Qed.

End TimeStamps.

(** On the sample clock (UTC+8): 2020-08-10 10:23:45 is 1597026225 seconds
    after the epoch; a time stamp in another format yields [None]. *)
Example get_time_stamp_sample :
  @AlertHandler.get_time_stamp Samples.clock (VStr "2020-08-10 10:23:45 CST")
  = Ok (VInt 1597026225000)
  /\ @AlertHandler.get_time_stamp Samples.clock (VStr "2020-6-25,1:42:26.0")
     = Ok VNone
  /\ @AlertHandler.get_time_stamp Samples.clock (VStr "") = Ok VNone.
Proof. conjuncts; vm_compute; reflexivity. Qed.

(** ** Clearing an alert *)

(** C10: without an alert or without an SSH client [clear_alert] returns
    ['Failed'] and sends nothing; with both it sends exactly the fixed
    command ['removealert -f '] (nothing of the alert is appended), returns
    ['Success'] whatever the command prints, and raises
    [StorageBackendException] exactly when running the command raises. *)
Theorem C10_clear_alert (client : option SSHClient) (alert : option dict)
  (sent : list string) :
  (alert = None \/ client = None ->
   AlertHandler.clear_alert client alert sent = (Ok "Failed", sent))
  /\ (forall c a,
         client = Some c -> alert = Some a ->
         snd (AlertHandler.clear_alert client alert sent)
         = (sent ++ ["removealert -f "])%list
         /\ (forall out,
                run_command c "removealert -f " = Ok out ->
                fst (AlertHandler.clear_alert client alert sent)
                = Ok "Success")
         /\ (forall e,
                run_command c "removealert -f " = Raise e ->
                fst (AlertHandler.clear_alert client alert sent)
                = Raise (StorageBackendException "Failed to ssh Hpe3parStor"))
         /\ ((exists e, fst (AlertHandler.clear_alert client alert sent)
                        = Raise e)
             <-> (exists e, run_command c "removealert -f " = Raise e))).
Proof.
  split.
  - intros [-> | ->]; [reflexivity | now destruct alert].
  - intros c a -> ->.
    unfold AlertHandler.clear_alert, try_except, bind, doexec, ret, raise.
    change AlertHandler.hpe3par_command_removealert with "removealert -f ".
    destruct (run_command c "removealert -f ") as [out | e] eqn:Hrun;
      cbn [fst snd]; repeat split; try congruence; eauto.
    + intros [e He]; discriminate.
    + intros [e He]; discriminate.
Qed.

(** ** Mandatory fields of a trap *)

Section ForIn.
Context {A : Type} (body : A -> result unit).

Lemma for_in_ok (xs : list A) :
  (forall x, In x xs -> body x = Ok tt) -> for_in xs body = Ok tt.
Proof.
  induction xs as [|x xs IH]; intros Hall; [reflexivity|].
  cbn [for_in]. rewrite (Hall x) by now left.
  cbn [rbind]. apply IH. intros y Hy. apply Hall. now right.
Qed.

Lemma for_in_raise (xs : list A) (e : exn) :
  for_in xs body = Raise e -> exists x, In x xs /\ body x = Raise e.
Proof.
  induction xs as [|x xs IH]; cbn [for_in]; [discriminate|].
  destruct (body x) as [[]|e'] eqn:Hx; cbn [rbind].
  - intros Hrest. destruct (IH Hrest) as (y & Hy & Hby).
    exists y. split; [now right | exact Hby].
  - intros [= ->]. exists x. split; [now left | exact Hx].
Qed.

Lemma for_in_ok_inv (xs : list A) :
  for_in xs body = Ok tt -> forall x, In x xs -> body x = Ok tt.
Proof.
  induction xs as [|x xs IH]; cbn [for_in]; intros Hfor y Hy;
    [destruct Hy|].
  destruct (body x) as [[]|e] eqn:Hx; cbn [rbind] in Hfor;
    [|discriminate].
  destruct Hy as [<- | Hy]; [exact Hx | now apply IH].
Qed.

(** The loop stops at the only element whose round raises. *)
Lemma for_in_only_failure (xs : list A) (bad : A) (e : exn) :
  In bad xs -> body bad = Raise e ->
  (forall x, In x xs -> x = bad \/ body x = Ok tt) ->
  for_in xs body = Raise e.
Proof.
  induction xs as [|x xs IH]; intros Hin Hbad Hothers; [destruct Hin|].
  cbn [for_in].
  destruct (Hothers x (or_introl eq_refl)) as [-> | Hx].
  - rewrite Hbad. reflexivity.
  - rewrite Hx. cbn [rbind].
    destruct Hin as [-> | Hin]; [congruence|].
    apply IH; trivial. intros y Hy. apply Hothers. now right.
Qed.
End ForIn.

Section ParseAlert.
Context `{TimeModule}.

Import constants.

Lemma mandatory_check_ok (alert : dict) (attr : string) :
  Design.mandatory_check alert attr = Ok tt <-> truthy (get alert attr) = true.
Proof.
  unfold Design.mandatory_check. destruct (truthy (get alert attr)); simpl;
    split; congruence.
Qed.

Lemma mandatory_check_raise (alert : dict) (attr : string) (e : exn) :
  Design.mandatory_check alert attr = Raise e ->
  truthy (get alert attr) = false
  /\ e = InvalidInput (AlertHandler.mandatory_missing_msg attr).
Proof.
  unfold Design.mandatory_check. destruct (truthy (get alert attr)); simpl;
    [discriminate | intros [= <-]; auto].
Qed.

(** With all mandatory fields in place the model is built. *)
Lemma parse_alert_present (alert : dict) :
  (forall attr, In attr AlertHandler._mandatory_alert_attributes ->
                truthy (get alert attr) = true) ->
  exists model,
    AlertHandler.parse_alert alert = Ok model
    /\ model !! "severity"
       = Some (VSeverity (table_get AlertHandler.SEVERITY_MAP
                            (get alert "severity") Severity.NOT_SPECIFIED))
    /\ model !! "category"
       = Some (VCategory (table_get AlertHandler.CATEGORY_MAP
                            (get alert "state") Category.NOT_SPECIFIED))
    /\ model !! "alert_id" = Some (get alert "messageCode")
    /\ model !! "sequence_number" = Some (get alert "id")
    /\ model !! "location" = Some (get alert "component").
Proof.
  intros Hall. unfold AlertHandler.parse_alert.
  fold (Design.mandatory_check alert).
  rewrite for_in_ok
    by (intros attr Hin; apply mandatory_check_ok, Hall, Hin).
  cbn [rbind].
  destruct (get_time_stamp_total (get alert "timeOccurred"))
    as (occur & -> & _).
  cbn [rbind rtry].
  eexists. split; [reflexivity|].
  destruct (py_eq (get alert "state") (VStr "autofixed"));
    repeat split; reflexivity.
Qed.

(** A missing mandatory field stops the call with [InvalidInput]. *)
Lemma parse_alert_missing (alert : dict) (e : exn) :
  for_in AlertHandler._mandatory_alert_attributes (Design.mandatory_check alert)
  = Raise e ->
  AlertHandler.parse_alert alert = Raise e.
Proof.
  intros Hfor. unfold AlertHandler.parse_alert.
  fold (Design.mandatory_check alert). rewrite Hfor. reflexivity.
Qed.

(** C5: [parse_alert] raises [InvalidInput] if and only if one of the
    nine mandatory trap fields is missing or empty; taking any single
    mandatory field out of a valid trap makes the call fail with
    [InvalidInput] (naming that field), and putting the field back makes it
    succeed again. *)
Theorem C5_parse_alert_mandatory (alert : dict) :
  ((exists msg, AlertHandler.parse_alert alert = Raise (InvalidInput msg))
   <-> (exists attr,
           In attr ["component"; "details"; "nodeID"; "severity";
                    "timeOccurred"; "id"; "messageCode"; "state";
                    "serialNumber"]
           /\ Design.missing_or_empty alert attr))
  /\ (forall attr v,
         In attr AlertHandler._mandatory_alert_attributes ->
         (forall a, In a AlertHandler._mandatory_alert_attributes ->
                    ~ Design.missing_or_empty alert a) ->
         alert !! attr = Some v ->
         AlertHandler.parse_alert (delete attr alert)
         = Raise (InvalidInput
                    ("Mandatory information " ++ attr
                     ++ " missing in alert message. "))
         /\ (exists model,
                AlertHandler.parse_alert (<[attr := v]> (delete attr alert))
                = Ok model
                /\ AlertHandler.parse_alert alert = Ok model)).
Proof.
  change ["component"; "details"; "nodeID"; "severity"; "timeOccurred";
          "id"; "messageCode"; "state"; "serialNumber"]
    with AlertHandler._mandatory_alert_attributes.
  split.
  - destruct (for_in AlertHandler._mandatory_alert_attributes
                (Design.mandatory_check alert)) as [[]|e] eqn:Hfor.
    + pose proof (for_in_ok_inv _ _ Hfor) as Hall.
      destruct (parse_alert_present alert) as (model & Hok & _).
      { intros attr Hin. apply mandatory_check_ok, Hall, Hin. }
      split.
      * intros [msg Hmsg]. congruence.
      * intros (attr & Hin & Hmiss).
        apply get_missing_or_empty in Hmiss.
        apply Hall, mandatory_check_ok in Hin. congruence.
    + destruct (for_in_raise _ _ _ Hfor) as (attr & Hin & Hbody).
      apply mandatory_check_raise in Hbody as [Hfalsy ->].
      split.
      * intros _. exists attr. split; [exact Hin|].
        now apply get_missing_or_empty.
      * intros _. eexists. apply parse_alert_missing. exact Hfor.
  - intros attr v Hin Hvalid Hv.
    assert (Hall : forall a, In a AlertHandler._mandatory_alert_attributes ->
                             truthy (get alert a) = true).
    { intros a Ha. specialize (Hvalid a Ha).
      rewrite <- get_missing_or_empty in Hvalid.
      now destruct (truthy (get alert a)). }
    split.
    + apply parse_alert_missing.
      apply for_in_only_failure with (bad := attr); [exact Hin | |].
      * unfold Design.mandatory_check. now rewrite get_delete_eq.
      * intros a Ha. destruct (decide (a = attr)) as [-> | Hne];
          [now left | right].
        apply mandatory_check_ok. rewrite get_delete_ne by congruence.
        now apply Hall.
    + rewrite insert_delete_eq, (insert_id alert attr v Hv).
      destruct (parse_alert_present alert Hall) as (model & Hok & _).
      exists model. split; exact Hok.
Qed.

End ParseAlert.

(** A valid trap, the same trap without its [severity], and the trap with
    the field restored. *)
Example parse_alert_sample :
  (exists model, @AlertHandler.parse_alert Samples.clock Samples.sample_trap
                 = Ok model)
  /\ @AlertHandler.parse_alert Samples.clock
       (delete "severity" Samples.sample_trap)
     = Raise (InvalidInput
                "Mandatory information severity missing in alert message. ")
  /\ @AlertHandler.parse_alert Samples.clock
       (<["severity" := VStr ""]> Samples.sample_trap)
     = Raise (InvalidInput
                "Mandatory information severity missing in alert message. ").
Proof.
  split; [exists (Samples.parsed Samples.sample_trap)|split];
    vm_compute; reflexivity.
Qed.

(** ** Listing the alerts *)

Section ForFold.
Context {A St : Type} (body : St -> A -> result St).

Lemma for_fold_app (xs ys : list A) (st : St) :
  for_fold (xs ++ ys) body st
  = rbind (for_fold xs body st) (fun st' => for_fold ys body st').
Proof.
  revert st. induction xs as [|x xs IH]; intros st; [reflexivity|].
  cbn [for_fold app]. destruct (body st x); cbn [rbind]; auto.
Qed.

(** Rounds that change nothing can be left out. *)
Lemma for_fold_skip (xs ys : list A) (x : A) (st : St) :
  (forall st', body st' x = Ok st') ->
  for_fold (xs ++ x :: ys) body st = for_fold (xs ++ ys) body st.
Proof.
  intros Hskip. rewrite !for_fold_app. cbn [for_fold].
  destruct (for_fold xs body st) as [st'|]; cbn [rbind]; [|reflexivity].
  now rewrite Hskip.
Qed.
End ForFold.

Section ListAlerts.
Context `{TimeModule}.

Import constants.

(** With a healthy transport the result is the alert list that the loop
    leaves, or the one error of the outer handler. *)
Lemma list_alerts_healthy (client : SSHClient) (text : string)
  (sent : list string) :
  run_command client "showalert -d" = Ok (VStr text) ->
  AlertHandler.list_alerts {| AlertHandler.sshclient := Some client |} sent
  = (match for_fold (split_lines text) AlertHandler.list_alerts_line
             AlertHandler.initial_locals with
     | Ok l => Ok (AlertHandler.alert_list l)
     | Raise _ =>
         Raise (StorageBackendException
                  "Failed to get pool metrics from Hpe3parStor")
     end,
     (sent ++ ["showalert -d"])%list).
Proof.
  intros Hrun.
  unfold AlertHandler.list_alerts, try_except, bind, doexec, lift, ret,
    raise.
  cbn [AlertHandler.sshclient].
  change AlertHandler.HPE3PAR_COMMAND_SHOWALERT with "showalert -d".
  rewrite Hrun. cbn [AlertHandler.split_output].
  destruct (for_fold _ _ _); reflexivity.
Qed.

Ltac step_cases :=
  repeat match goal with
    | |- context [if String.eqb ?a ?b then _ else _] =>
        destruct (String.eqb a b) eqn:?
    | |- context [index ?l ?i] => destruct (index l i) eqn:?; cbn [rbind]
    | |- context [AlertHandler.get_time_stamp ?t] =>
        destruct (AlertHandler.get_time_stamp t) eqn:?; cbn [rbind]
    end.

(** Earlier alerts ride along untouched. *)
Lemma list_alerts_line_earlier (earlier : list dict)
  (l : AlertHandler.locals) (line : string) :
  AlertHandler.list_alerts_line (Design.with_earlier earlier l) line
  = match AlertHandler.list_alerts_line l line with
    | Ok l' => Ok (Design.with_earlier earlier l')
    | Raise e => Raise e
    end.
Proof.
  unfold AlertHandler.list_alerts_line.
  destruct (negb (String.eqb line "")); [|reflexivity].
  cbv zeta.
  cbn [AlertHandler.occur_time AlertHandler.set_component
         Design.with_earlier].
  step_cases; try reflexivity.
  unfold Design.with_earlier; cbn. now rewrite app_assoc.
Qed.

Lemma for_fold_earlier (earlier : list dict) (lines : list string)
  (l : AlertHandler.locals) :
  for_fold lines AlertHandler.list_alerts_line
    (Design.with_earlier earlier l)
  = match for_fold lines AlertHandler.list_alerts_line l with
    | Ok l' => Ok (Design.with_earlier earlier l')
    | Raise e => Raise e
    end.
Proof.
  revert l. induction lines as [|line lines IH]; intros l; [reflexivity|].
  cbn [for_fold]. rewrite list_alerts_line_earlier.
  destruct (AlertHandler.list_alerts_line l line); cbn [rbind]; auto.
Qed.

(** A line without a recognised key is passed over. *)
Lemma list_alerts_line_unrecognised (l : AlertHandler.locals)
  (line : string) :
  Design.unrecognised line = true ->
  AlertHandler.list_alerts_line l line = Ok l.
Proof.
  unfold Design.unrecognised, Design.line_key, Design.recognised_keys,
    AlertHandler.list_alerts_line.
  destruct (String.eqb line ""); [reflexivity|]. cbn [orb negb].
  destruct (split_once ": " line) as [|k rest] eqn:Hsplit.
  { unfold split_once in Hsplit.
    destruct (partition_at ": " line) as [[]|]; discriminate. }
  cbv zeta. cbn [alter list_alter index lookup list_lookup rbind].
  intros Hkey. apply negb_true_iff, bool_decide_eq_false in Hkey.
  assert (Hne : forall k', In k' Design.recognised_keys ->
                           String.eqb (remove_spaces k) k' = false).
  { intros k' Hk'. apply String.eqb_neq. intros Heq. apply Hkey.
    rewrite Heq. now apply list_elem_of_In. }
  rewrite !Hne by (cbn; tauto). reflexivity.
Qed.

Lemma has_value_split (line : string) :
  Design.has_value line = true ->
  exists k v, split_once ": " line = [k; v] /\ line <> "".
Proof.
  unfold Design.has_value. intros Hval.
  destruct (split_once ": " line) as [|k [|v [|]]] eqn:Hsplit;
    try discriminate.
  exists k, v. split; [reflexivity|]. intros ->. discriminate.
Qed.

(** A line inside a record updates the accumulators only. *)
Lemma list_alerts_line_inner (l : AlertHandler.locals) (line : string) :
  Design.inner_line line = true ->
  exists l', AlertHandler.list_alerts_line l line = Ok l'
             /\ AlertHandler.alert_list l' = AlertHandler.alert_list l.
Proof.
  unfold Design.inner_line. intros [Hshape Hinner]%andb_true_iff.
  apply negb_true_iff in Hinner.
  unfold AlertHandler.list_alerts_line.
  destruct (String.eqb line "") eqn:Hempty; cbn [negb]; [eauto|].
  cbn [orb] in Hshape.
  destruct (has_value_split line Hshape) as (k & v & Hsplit & _).
  unfold Design.terminal_line, Design.line_key in Hinner.
  rewrite Hshape, Hsplit in Hinner. cbn [andb] in Hinner.
  cbv zeta. rewrite Hsplit.
  cbn [alter list_alter index lookup list_lookup rbind].
  rewrite Hinner.
  repeat match goal with
    | |- context [if String.eqb ?a ?b then _ else _] =>
        destruct (String.eqb a b)
    end; eauto.
Qed.

(** The closing line appends one alert and empties the accumulators. *)
Lemma list_alerts_line_terminal (l : AlertHandler.locals) (line : string) :
  Design.terminal_line line = true ->
  exists model,
    AlertHandler.list_alerts_line l line
    = Ok (Design.flushed (AlertHandler.alert_list l ++ [model])).
Proof.
  unfold Design.terminal_line. intros [Hshape Hkey]%andb_true_iff.
  destruct (has_value_split line Hshape) as (k & v & Hsplit & Hne).
  unfold Design.line_key in Hkey. rewrite Hsplit in Hkey.
  apply String.eqb_eq in Hkey.
  unfold AlertHandler.list_alerts_line.
  apply String.eqb_neq in Hne. rewrite Hne. cbn [negb].
  cbv zeta. rewrite Hsplit.
  cbn [alter list_alter index lookup list_lookup rbind].
  rewrite Hkey.
  cbn [String.eqb Ascii.eqb Bool.eqb andb].
  cbn [String.eqb Ascii.eqb Bool.eqb andb
         AlertHandler.occur_time AlertHandler.set_component
         AlertHandler.alert_list].
  destruct (get_time_stamp_total (AlertHandler.occur_time l))
    as (occur & -> & _).
  cbn [rbind]. eexists. reflexivity.
Qed.

Lemma values_of_snoc (key : string) (lines : list string) (line : string) :
  Design.values_of key (lines ++ [line])
  = (Design.values_of key lines
     ++ if Design.gives key line then [Design.line_value line] else [])%list.
Proof.
  unfold Design.values_of. rewrite List.filter_app, List.map_app.
  cbn [List.filter]. now destruct (Design.gives key line).
Qed.

(** A later line with the key overrides the field; any other line leaves it. *)
Lemma field_of_snoc (key : string) (lines : list string) (line : string) :
  Design.field_of key (lines ++ [line])
  = if Design.gives key line then Design.line_value line
    else Design.field_of key lines.
Proof.
  unfold Design.field_of. rewrite values_of_snoc.
  destruct (Design.gives key line).
  - now rewrite last_snoc.
  - now rewrite app_nil_r.
Qed.

Lemma cli_severity_assoc (label : string) (current : value) :
  AlertHandler.cli_severity label current
  = match Design.assoc label Design.cli_severity_labels with
    | Some c => VSeverity c
    | None => current
    end.
Proof.
  unfold AlertHandler.cli_severity, Design.cli_severity_labels.
  cbn [Design.assoc].
  repeat match goal with
    | |- context [if String.eqb ?a ?b then _ else _] =>
        destruct (String.eqb a b)
    end; reflexivity.
Qed.

Lemma severity_of_snoc (lines : list string) (line : string) :
  Design.severity_of (lines ++ [line])
  = if Design.gives "Severity" line
    then AlertHandler.cli_severity (Design.line_value line)
           (Design.severity_of lines)
    else Design.severity_of lines.
Proof.
  unfold Design.severity_of. rewrite values_of_snoc.
  destruct (Design.gives "Severity" line); [|now rewrite app_nil_r].
  rewrite omap_app, cli_severity_assoc. cbn [omap list_omap].
  destruct (Design.assoc _ _) as [c|].
  - rewrite List.map_app. cbn [map]. now rewrite last_snoc.
  - now rewrite app_nil_r.
Qed.

Lemma category_of_snoc (lines : list string) (line : string) :
  Design.category_of (lines ++ [line])
  = if Design.gives "State" line
    then AlertHandler.cli_state (Design.line_value line)
           (Design.category_of lines)
    else Design.category_of lines.
Proof.
  unfold Design.category_of. rewrite values_of_snoc.
  destruct (Design.gives "State" line); [|now rewrite app_nil_r].
  rewrite existsb_app. cbn [existsb]. unfold AlertHandler.cli_state.
  rewrite orb_false_r.
  destruct (existsb _ _), (String.eqb _ "New"); reflexivity.
Qed.

Lemma gives_key (key line : string) :
  Design.has_value line = true ->
  Design.line_key line = key ->
  forall key', Design.gives key' line = String.eqb key key'.
Proof.
  intros Hval <- key'. unfold Design.gives. now rewrite Hval.
Qed.

Lemma gives_other (line : string) :
  (forall key, In key Design.recognised_keys ->
               String.eqb (Design.line_key line) key = false) ->
  forall key, In key Design.recognised_keys ->
              Design.gives key line = false.
Proof.
  intros Hother key Hkey. unfold Design.gives.
  rewrite (Hother key Hkey). apply andb_false_r.
Qed.

(** A line that changes no local variable adds nothing to the record. *)
Lemma gathered_other (alerts : list dict) (lines : list string)
  (line : string) :
  (forall key, In key Design.recognised_keys ->
               Design.gives key line = false) ->
  Design.gathered alerts (lines ++ [line]) = Design.gathered alerts lines.
Proof.
  intros Hother. unfold Design.gathered.
  rewrite !field_of_snoc, severity_of_snoc, category_of_snoc.
  rewrite !Hother by (cbn; tauto). reflexivity.
Qed.

(** One line of a record: the local variables follow the fields of the
    lines read so far. *)
Lemma list_alerts_line_body (alerts : list dict) (lines : list string)
  (line : string) :
  Design.body_line line = true ->
  AlertHandler.list_alerts_line (Design.gathered alerts lines) line
  = Ok (Design.gathered alerts (lines ++ [line])).
Proof.
  unfold Design.body_line. intros [Hshape Hinner]%andb_true_iff.
  apply negb_true_iff in Hinner.
  destruct (Design.unrecognised line) eqn:Hnoise.
  { rewrite (list_alerts_line_unrecognised _ line Hnoise).
    rewrite gathered_other; [reflexivity|].
    apply gives_other. intros key Hkey.
    unfold Design.unrecognised in Hnoise.
    destruct (String.eqb line "") eqn:Hempty.
    - apply String.eqb_eq in Hempty. subst line.
      cbn in Hkey |- *.
      repeat (destruct Hkey as [<- | Hkey]; [reflexivity|]).
      destruct Hkey.
    - cbn [orb] in Hnoise.
      apply negb_true_iff, bool_decide_eq_false in Hnoise.
      apply String.eqb_neq. intros Heq. apply Hnoise.
      rewrite Heq. now apply list_elem_of_In. }
  cbn [orb] in Hshape.
  destruct (has_value_split line Hshape) as (k & v & Hsplit & Hne).
  assert (Hvalue : Design.line_value line = v).
  { unfold Design.line_value. now rewrite Hsplit. }
  assert (Hkey : Design.line_key line = remove_spaces k).
  { unfold Design.line_key. now rewrite Hsplit. }
  unfold Design.terminal_line in Hinner.
  rewrite Hshape, Hkey in Hinner. cbn [andb] in Hinner.
  unfold AlertHandler.list_alerts_line.
  apply String.eqb_neq in Hne. rewrite Hne. cbn [negb].
  cbv zeta. rewrite Hsplit.
  cbn [alter list_alter index lookup list_lookup rbind].
  rewrite Hinner.
  unfold Design.gathered.
  rewrite !field_of_snoc, severity_of_snoc, category_of_snoc.
  rewrite !(gives_key (remove_spaces k) line Hshape Hkey), Hvalue.
  repeat match goal with
    | |- context [if String.eqb (remove_spaces k) ?b then _ else _] =>
        let Heq := fresh "Heq" in
        destruct (String.eqb (remove_spaces k) b) eqn:Heq;
        [apply String.eqb_eq in Heq; rewrite Heq in *; reflexivity|]
    end.
  reflexivity.
Qed.

Lemma for_fold_body (alerts : list dict) (lines rest : list string) :
  forallb Design.body_line rest = true ->
  for_fold rest AlertHandler.list_alerts_line
    (Design.gathered alerts lines)
  = Ok (Design.gathered alerts (lines ++ rest)).
Proof.
  revert lines. induction rest as [|line rest IH]; intros lines Hall.
  - now rewrite app_nil_r.
  - cbn [forallb] in Hall. apply andb_true_iff in Hall as [Hline Hall].
    cbn [for_fold]. rewrite (list_alerts_line_body _ _ _ Hline).
    cbn [rbind]. rewrite (IH _ Hall).
    now rewrite <- app_assoc.
Qed.

Lemma get_time_stamp_text (text : string) :
  AlertHandler.get_time_stamp (VStr text) = Ok (Design.time_of text).
Proof.
  unfold AlertHandler.get_time_stamp, Design.time_of, rtry. cbn [rbind].
  destruct (strptime _ _) as [ta|]; cbn [rbind]; [|reflexivity].
  now destruct (mktime ta).
Qed.

(** The closing line appends the alert of the block and empties the local
    variables. *)
Lemma list_alerts_line_closing (alerts : list dict) (b : Design.block) :
  Design.terminal_line (Design.terminal b) = true ->
  AlertHandler.list_alerts_line (Design.gathered alerts (Design.body b))
    (Design.terminal b)
  = Ok (Design.flushed (alerts ++ [Design.alert_of_block b])).
Proof.
  unfold Design.terminal_line. intros [Hshape Hkey]%andb_true_iff.
  destruct (has_value_split _ Hshape) as (k & v & Hsplit & Hne).
  assert (Hvalue : Design.line_value (Design.terminal b) = v).
  { unfold Design.line_value. now rewrite Hsplit. }
  unfold Design.line_key in Hkey. rewrite Hsplit in Hkey.
  apply String.eqb_eq in Hkey.
  unfold AlertHandler.list_alerts_line.
  apply String.eqb_neq in Hne. rewrite Hne. cbn [negb].
  cbv zeta. rewrite Hsplit.
  cbn [alter list_alter index lookup list_lookup rbind].
  rewrite Hkey.
  cbn [String.eqb Ascii.eqb Bool.eqb andb].
  cbn [String.eqb Ascii.eqb Bool.eqb andb Design.gathered
         AlertHandler.occur_time AlertHandler.set_component
         AlertHandler.alert_list AlertHandler.message_code
         AlertHandler.event_type AlertHandler.severity AlertHandler.state
         AlertHandler.alarm_id AlertHandler.alert_message
         AlertHandler.component].
  rewrite get_time_stamp_text. cbn [rbind].
  unfold Design.alert_of_block. rewrite Hvalue. reflexivity.
Qed.

(** A complete block, read after any alerts, adds its alert and leaves the
    local variables empty. *)
Lemma block_read (alerts : list dict) (b : Design.block) :
  Design.complete b = true ->
  for_fold (Design.block_lines b) AlertHandler.list_alerts_line
    (Design.flushed alerts)
  = Ok (Design.flushed (alerts ++ [Design.alert_of_block b])).
Proof.
  unfold Design.complete, Design.block_lines.
  intros [Hbody Hlast]%andb_true_iff.
  rewrite for_fold_app.
  change (Design.flushed alerts) with (Design.gathered alerts []).
  rewrite (for_fold_body alerts [] _ Hbody). cbn [rbind app for_fold].
  rewrite (list_alerts_line_closing alerts b Hlast). reflexivity.
Qed.

Lemma blocks_read (blocks : list Design.block) (alerts : list dict) :
  forallb Design.complete blocks = true ->
  for_fold (concat (map Design.block_lines blocks))
    AlertHandler.list_alerts_line (Design.flushed alerts)
  = Ok (Design.flushed (alerts ++ map Design.alert_of_block blocks)).
Proof.
  revert alerts. induction blocks as [|b blocks IH]; intros alerts Hall.
  - cbn. now rewrite app_nil_r.
  - cbn [forallb] in Hall. apply andb_true_iff in Hall as [Hb Hall].
    cbn [map concat]. rewrite for_fold_app, (block_read alerts b Hb).
    cbn [rbind]. rewrite (IH _ Hall). now rewrite <- app_assoc.
Qed.

Lemma forallb_firstn {A : Type} (f : A -> bool) (k : nat) (xs : list A) :
  forallb f xs = true -> forallb f (firstn k xs) = true.
Proof.
  revert k. induction xs as [|x xs IH]; intros [|k] Hall; try reflexivity.
  cbn [forallb firstn] in *. apply andb_true_iff in Hall as [-> Hall].
  now apply IH.
Qed.

(** C8: when the output of [showalert -d] consists of N complete record
    blocks, each closed by its [Component] line (and perhaps an open
    remainder), [list_alerts] returns exactly N alerts in the order of the
    blocks.  The alert of a block has its fields from the lines of that
    block alone: identifier, message code, time, type and message are the
    last values that the lines of the block give to these keys, the
    severity and the category come from its [Severity] and [State] lines,
    the location from its closing line, and a field that the block does not
    set is empty, whatever the blocks before it hold.  The block yields the
    same alert when it is parsed on its own, and after each block all local
    variables of the loop are empty again. *)
Theorem C8_list_alerts_blocks (client : SSHClient) (text : string)
  (blocks : list Design.block) (trailer : list string)
  (sent : list string) :
  run_command client "showalert -d" = Ok (VStr text) ->
  split_lines text
  = (concat (map Design.block_lines blocks) ++ trailer)%list ->
  forallb Design.complete blocks = true ->
  forallb Design.body_line trailer = true ->
  exists alerts,
    AlertHandler.list_alerts {| AlertHandler.sshclient := Some client |}
      sent
    = (Ok alerts, (sent ++ ["showalert -d"])%list)
    /\ length alerts = length blocks
    /\ Forall2
         (fun b alert =>
            alert = Design.alert_of_block b
            /\ for_fold (Design.block_lines b) AlertHandler.list_alerts_line
                 AlertHandler.initial_locals
               = Ok (Design.flushed [alert]))
         blocks alerts
    /\ forall k,
        for_fold (concat (map Design.block_lines (firstn k blocks)))
          AlertHandler.list_alerts_line AlertHandler.initial_locals
        = Ok (Design.flushed (firstn k alerts)).
Proof.
  intros Hrun Hlines Hblocks Htrailer.
  exists (map Design.alert_of_block blocks).
  split; [|split; [|split]].
  - rewrite (list_alerts_healthy client text sent Hrun), Hlines.
    rewrite for_fold_app.
    change AlertHandler.initial_locals with (Design.flushed []).
    rewrite (blocks_read blocks [] Hblocks). cbn [rbind app].
    change (Design.flushed (map Design.alert_of_block blocks))
      with (Design.gathered (map Design.alert_of_block blocks) []).
    rewrite (for_fold_body _ [] _ Htrailer). reflexivity.
  - apply length_map.
  - clear Hlines. induction blocks as [|b blocks IH]; [constructor|].
    cbn [forallb] in Hblocks.
    apply andb_true_iff in Hblocks as [Hb Hblocks].
    cbn [map]. constructor; [|now apply IH].
    split; [reflexivity|].
    change AlertHandler.initial_locals with (Design.flushed []).
    exact (block_read [] b Hb).
  - intros k. rewrite firstn_map.
    change AlertHandler.initial_locals with (Design.flushed []).
    exact (blocks_read (firstn k blocks) []
             (forallb_firstn _ k blocks Hblocks)).
Qed.

End ListAlerts.

(** The two sample records, followed by the line that counts them, come
    back in order, each with the fields of its own block. *)
Lemma C8_list_alerts_blocks_witness :
  exists alerts,
    @AlertHandler.list_alerts Samples.clock
      {| AlertHandler.sshclient :=
           Some (Samples.client_saying MoreSamples.counted_output) |} []
    = (Ok alerts, ([] ++ ["showalert -d"])%list)
    /\ length alerts = length Samples.two_alerts_blocks
    /\ Forall2
         (fun b alert =>
            alert = @Design.alert_of_block Samples.clock b
            /\ for_fold (Design.block_lines b)
                 (@AlertHandler.list_alerts_line Samples.clock)
                 AlertHandler.initial_locals
               = Ok (Design.flushed [alert]))
         Samples.two_alerts_blocks alerts
    /\ forall k,
        for_fold
          (concat (map Design.block_lines
                     (firstn k Samples.two_alerts_blocks)))
          (@AlertHandler.list_alerts_line Samples.clock)
          AlertHandler.initial_locals
        = Ok (Design.flushed (firstn k alerts)).
Proof.
  apply (@C8_list_alerts_blocks Samples.clock
           (Samples.client_saying MoreSamples.counted_output)
           MoreSamples.counted_output Samples.two_alerts_blocks
           [""; "2 alerts"] []);
    vm_compute; reflexivity.
Defined.

Example list_alerts_two_records :
  exists first second,
    fst (@AlertHandler.list_alerts Samples.clock
           (Samples.handler_saying Samples.two_alerts_output) [])
    = Ok [first; second]
    /\ first !! "sequence_number" = Some (VStr "1")
    /\ first !! "location" = Some (VStr "sw_pd:7")
    /\ first !! "severity" = Some (VSeverity constants.Severity.MAJOR)
    /\ first !! "occur_time" = Some (VInt 1597026225000)
    /\ second !! "sequence_number" = Some (VStr "2")
    /\ second !! "location" = Some (VStr "hw_cage:1")
    /\ second !! "severity" = Some (VSeverity constants.Severity.WARNING)
    /\ second !! "description" = Some (VStr "Cage 1 degraded").
Proof.
  exists (Samples.alert_at 0 Samples.two_alerts_output),
    (Samples.alert_at 1 Samples.two_alerts_output).
  conjuncts; vm_compute; reflexivity.
Qed.

Section SkippedLines.
Context `{TimeModule}.


End SkippedLines.



(** ** Severity and category *)

Section SeverityMapping.
Context `{TimeModule}.

Import constants.


Lemma line_State (l : AlertHandler.locals) (v : string) :
  AlertHandler.list_alerts_line l ("State: " ++ v)
  = Ok (AlertHandler.set_state
          (AlertHandler.cli_state v (AlertHandler.state l)) l).
Proof. reflexivity. Qed.



Lemma line_Severity (l : AlertHandler.locals) (v : string) :
  AlertHandler.list_alerts_line l ("Severity: " ++ v)
  = Ok (AlertHandler.set_severity
          (AlertHandler.cli_severity v (AlertHandler.severity l)) l).
Proof. reflexivity. Qed.





End SeverityMapping.



(** ** The alert-source controller *)

Section Controller.
Context `{Cryptor} `{SnmpValidator} `{AlertView} `{AlertAPI}.

(** Reading the old identity does not change the state. *)
Lemma _get_snmp_config_brief_cases (id : string) (w : world) :
  AlertSourceController._get_snmp_config_brief id w
  = (match alert_sources w !! id with
     | None => Ok None
     | Some row =>
         match get row "version" with
         | VStr _ => Ok (Some (Design.brief_of row))
         | _ => Raise AttributeError
         end
     end, w).
Proof.
  unfold AlertSourceController._get_snmp_config_brief, try_except_only,
    bind, db.alert_source_get, lift, ret.
  destruct (alert_sources w !! id) as [row|]; [|reflexivity].
  change (subscript _ "version") with (Ok (get row "version")).
  unfold Design.brief_of.
  destruct (get row "version") as [ | version | | | | | | ];
    cbn [py_lower is_AlertSourceNotFound]; try reflexivity.
  destruct (String.eqb (lower version) "snmpv3"); reflexivity.
Qed.

(** C3: deleting the alert source of a storage that has none raises
    [AlertSourceNotFound] and leaves the state as it was: no sync call and
    no change of the database.  When a record exists, the array-side sync is
    called first, with the old brief configuration and no new one, and only
    then the persisted record is deleted; when the sync raises, the record
    stays. *)
Theorem C3_delete (id : string) (w : world) :
  (alert_sources w !! id = None ->
   AlertSourceController.delete id w = (Raise (AlertSourceNotFound id), w))
  /\ (forall row version,
         alert_sources w !! id = Some row ->
         get row "version" = VStr version ->
         AlertSourceController._get_snmp_config_brief id w
         = (Ok (Some (Design.brief_of row)), w)
         /\ (sync_answer (Some (Design.brief_of row)) None = Ok tt ->
             AlertSourceController.delete id w
             = (Ok tt,
                {| storages := storages w;
                   alert_sources := delete id (alert_sources w);
                   calls := (calls w
                             ++ [EvSync (Some (Design.brief_of row)) None;
                                 EvDbDelete id])%list |}))
         /\ (forall e,
                sync_answer (Some (Design.brief_of row)) None = Raise e ->
                AlertSourceController.delete id w
                = (Raise e,
                   {| storages := storages w;
                      alert_sources := alert_sources w;
                      calls := (calls w
                                ++ [EvSync (Some (Design.brief_of row))
                                      None])%list |}))).
Proof.
  split.
  - intros Hnone. unfold AlertSourceController.delete, bind.
    rewrite _get_snmp_config_brief_cases, Hnone. reflexivity.
  - intros row version Hrow Hversion.
    pose proof (_get_snmp_config_brief_cases id w) as Hbrief.
    rewrite Hrow, Hversion in Hbrief.
    split; [exact Hbrief|].
    unfold AlertSourceController.delete, bind.
    rewrite Hbrief.
    unfold AlertSourceController.sync_snmp_config, db.alert_source_delete.
    split.
    + intros ->. cbn [alert_sources log]. rewrite Hrow.
      unfold log, set_alert_sources. cbn [storages alert_sources calls].
      now rewrite <- app_assoc.
    + intros e ->. reflexivity.
Qed.

Lemma truthy_get (d : dict) (k : string) :
  truthy (get d k) = true ->
  exists v, d !! k = Some v /\ get d k = v /\ subscript d k = Ok v
            /\ truthy v = true.
Proof.
  unfold get, get_default, subscript.
  destruct (d !! k) as [v|]; [|discriminate]. eauto.
Qed.

Lemma subscript_insert_ne (d : dict) (k k' : string) (v : value) :
  k <> k' -> subscript (<[k := v]> d) k' = subscript d k'.
Proof. intros Hne. unfold subscript. now rewrite lookup_insert_ne. Qed.

(** What the check of the input does: it raises before anything leaves the
    controller, or it has found the fields in order and hands the record,
    with its keys encoded, to the connectivity check. *)
Lemma _input_check_cases (a : dict) (w : world) :
  (exists e, AlertSourceController._input_check a w = (Raise e, w))
  \/ (exists a0 pa pp,
         Design.structurally_valid a = true
         /\ AlertSourceController._input_check a w
            = (validate_connectivity a0 pa pp,
               log (EvConnectivity a0 pa pp) w)
         /\ a0 !! "storage_id" = a !! "storage_id"
         /\ Design.encoded_or_null a a0 "auth_key"
         /\ Design.encoded_or_null a a0 "privacy_key"
         /\ Design.unchanged_or_null a a0 "community_string").
Proof.
  unfold Design.encoded_or_null, Design.unchanged_or_null.
  unfold AlertSourceController._input_check, Design.structurally_valid,
    bind, lift, raise, ret, AlertSourceController.check_connectivity.
  destruct (get a "version") as [ | version | | | | | | ];
    cbn [py_lower]; try (left; eexists; reflexivity).
  destruct (String.eqb (lower version) "snmpv3").
  - destruct (validate_engine_id (get a "engine_id")) as [[]|e];
      [|left; eexists; reflexivity].
    destruct (truthy (get a "username")); cbn [negb orb andb];
      [|left; eexists; reflexivity].
    destruct (truthy (get a "security_level")); cbn [negb orb andb];
      [|left; eexists; reflexivity].
    destruct (truthy (get a "engine_id")); cbn [negb orb andb];
      [|left; eexists; reflexivity].
    destruct (py_eq (get a "security_level") (VStr "AuthNoPriv")
              || py_eq (get a "security_level") (VStr "AuthPriv"))
      eqn:Hauth; cbn [negb orb andb].
    + destruct (truthy (get a "auth_protocol")); cbn [negb orb andb];
        [|left; eexists; reflexivity].
      destruct (truthy (get a "auth_key")) eqn:Hkey; cbn [negb orb andb];
        [|left; eexists; reflexivity].
      destruct (truthy_get a "auth_key" Hkey)
        as (plain & Hplain & _ & -> & _).
      destruct (cryptor_encode plain) as [enc|e] eqn:Henc;
        [|left; eexists; reflexivity].
      destruct (py_eq (get a "security_level") (VStr "AuthPriv"));
        cbn [negb orb andb].
      * rewrite !get_insert_ne by done.
        destruct (truthy (get a "privacy_protocol")); cbn [negb orb andb];
          [|left; eexists; reflexivity].
        destruct (truthy (get a "privacy_key")) eqn:Hpkey;
          cbn [negb orb andb]; [|left; eexists; reflexivity].
        rewrite subscript_insert_ne by done.
        destruct (truthy_get a "privacy_key" Hpkey)
          as (pplain & Hpplain & _ & -> & _).
        destruct (cryptor_encode pplain) as [penc|e] eqn:Hpenc;
          [|left; eexists; reflexivity].
        right. do 3 eexists. split; [reflexivity|].
        split; [reflexivity|].
        rewrite !lookup_insert_ne by done.
        split; [reflexivity|].
        split; [right; exists plain, enc;
                rewrite ?lookup_insert_ne by done;
                now rewrite lookup_insert_eq|].
        split; [right; exists pplain, penc;
                rewrite ?lookup_insert_ne by done;
                now rewrite lookup_insert_eq|].
        left. now rewrite lookup_insert_eq.
      * right. do 3 eexists. split; [reflexivity|].
        split; [reflexivity|].
        rewrite !lookup_insert_ne by done.
        split; [reflexivity|].
        split; [right; exists plain, enc;
                rewrite ?lookup_insert_ne by done;
                now rewrite lookup_insert_eq|].
        split; [left; rewrite ?lookup_insert_ne by done;
                now rewrite lookup_insert_eq|].
        left. now rewrite lookup_insert_eq.
    + apply orb_false_iff in Hauth as [_ Hpriv]. rewrite Hpriv.
      cbn [negb orb andb].
      right. do 3 eexists. split; [reflexivity|].
      split; [reflexivity|].
      rewrite !lookup_insert_ne by done.
      split; [reflexivity|].
      split; [left; rewrite ?lookup_insert_ne by done;
              now rewrite lookup_insert_eq|].
      split; [left; rewrite ?lookup_insert_ne by done;
              now rewrite lookup_insert_eq|].
      left. now rewrite lookup_insert_eq.
  - fold (get a "community_string").
    destruct (truthy (get a "community_string")) eqn:Hcs;
      cbn [negb]; [|left; eexists; reflexivity].
    destruct (truthy_get a "community_string" Hcs)
      as (plain & Hplain & _ & _ & Htruthy).
    right. do 3 eexists. split; [reflexivity|].
    split; [reflexivity|].
    cbn [foldl AlertSourceController.SNMPv3_keys].
    split; [now rewrite !lookup_insert_ne by done|].
    split; [left; rewrite ?lookup_insert_ne by done;
            now rewrite lookup_insert_eq|].
    split; [left; rewrite ?lookup_insert_ne by done;
            now rewrite lookup_insert_eq|].
    right. exists plain. rewrite !lookup_insert_ne by done. auto.
Qed.

(** The runs of [put]: it raises before anything leaves the controller;
    or the connectivity check is made on a record whose fields are in order
    and the call raises before it writes; or the connectivity check
    succeeds, the record is written (created under its storage id, or
    merged over the old row) and then the sync is called. *)
Lemma put_cases (id : string) (body : dict) (w : world) :
  (exists e, AlertSourceController.put id body w = (Raise e, w))
  \/ (exists a0 pa pp,
         Design.structurally_valid (<["storage_id" := VStr id]> body) = true
         /\ a0 !! "storage_id" = Some (VStr id)
         /\ Design.encoded_or_null body a0 "auth_key"
         /\ Design.encoded_or_null body a0 "privacy_key"
         /\ Design.unchanged_or_null body a0 "community_string"
         /\ ((exists e,
                 AlertSourceController.put id body w
                 = (Raise e, log (EvConnectivity a0 pa pp) w))
             \/ (exists a' written key row to_del,
                    validate_connectivity a0 pa pp = Ok a'
                    /\ ((alert_sources w !! id = None
                         /\ get a' "storage_id" = VStr key
                         /\ written = EvDbCreate a'
                         /\ row = a'
                         /\ to_del = None)
                        \/ (exists old,
                               alert_sources w !! id = Some old
                               /\ key = id
                               /\ written = EvDbUpdate id a'
                               /\ row = a' ∪ old
                               /\ to_del = Some (Design.brief_of old)))
                    /\ AlertSourceController.put id body w
                       = (rbind (sync_answer to_del (Some row))
                            (fun _ => build_alert_source row),
                          {| storages := storages w;
                             alert_sources := <[key := row]> (alert_sources w);
                             calls := (calls w
                                       ++ [EvConnectivity a0 pa pp; written;
                                           EvSync to_del (Some row)])%list
                          |})))).
Proof.
  unfold AlertSourceController.put, bind, db.storage_get.
  destruct (bool_decide (id ∈ storages w)); [|left; eexists; reflexivity].
  destruct (_input_check_cases (<["storage_id" := VStr id]> body) w)
    as [[e ->] | (a0 & pa & pp & Hvalid & -> & Hid & Hauth & Hpriv & Hcs)];
    [left; eexists; reflexivity|].
  right. exists a0, pa, pp.
  rewrite lookup_insert_eq in Hid.
  unfold Design.encoded_or_null, Design.unchanged_or_null in *.
  rewrite !lookup_insert_ne in Hauth, Hpriv, Hcs by done.
  do 5 (split; [assumption|]).
  destruct (validate_connectivity a0 pa pp) as [a'|e];
    [|left; eexists; reflexivity].
  rewrite _get_snmp_config_brief_cases. cbn [alert_sources log].
  destruct (alert_sources w !! id) as [old|] eqn:Hold.
  - destruct (get old "version") eqn:Hversion;
      try (left; eexists; reflexivity).
    right. exists a', (EvDbUpdate id a'), id, (a' ∪ old),
      (Some (Design.brief_of old)).
    split; [reflexivity|]. split; [right; exists old; auto|].
    unfold db.alert_source_update. cbn [alert_sources log]. rewrite Hold.
    unfold AlertSourceController.sync_snmp_config, lift, log,
      set_alert_sources.
    cbn [storages alert_sources calls].
    rewrite <- !app_assoc. cbn [app].
    destruct (sync_answer _ _) as [[]|]; reflexivity.
  - unfold db.alert_source_create.
    destruct (get a' "storage_id") as [ | key | | | | | | ] eqn:Hkey;
      try (left; eexists; reflexivity).
    cbn [alert_sources log].
    destruct (alert_sources w !! key) eqn:Hfree;
      [left; eexists; reflexivity|].
    right. exists a', (EvDbCreate a'), key, a', None.
    split; [reflexivity|]. split; [left; auto|].
    unfold AlertSourceController.sync_snmp_config, lift, log,
      set_alert_sources.
    cbn [storages alert_sources calls].
    rewrite <- !app_assoc. cbn [app].
    destruct (sync_answer _ _) as [[]|]; reflexivity.
Qed.

(** C4: every run of [put] makes its outside calls in one order.  Either
    nothing is called and nothing is written; or the connectivity check is
    called, on a record that has passed the field validation, and nothing
    is written and no sync is called; or the connectivity check has
    succeeded, then the record is written to the database, then the sync is
    called.  So a record that fails the field validation causes no call and
    no write, and a connectivity check that raises is followed by no write
    and no sync. *)
Theorem C4_put_ordering (id : string) (body : dict) (w : world) :
  exists trace,
    calls (snd (AlertSourceController.put id body w))
    = (calls w ++ trace)%list
    /\ storages (snd (AlertSourceController.put id body w)) = storages w
    /\ ((trace = []
         /\ alert_sources (snd (AlertSourceController.put id body w))
            = alert_sources w
         /\ exists e, fst (AlertSourceController.put id body w) = Raise e)
        \/ (exists a pa pp,
               trace = [EvConnectivity a pa pp]
               /\ Design.structurally_valid (<["storage_id" := VStr id]> body)
                  = true
               /\ alert_sources (snd (AlertSourceController.put id body w))
                  = alert_sources w
               /\ exists e,
                   fst (AlertSourceController.put id body w) = Raise e)
        \/ (exists a pa pp a' written to_del row key,
               trace = [EvConnectivity a pa pp; written;
                        EvSync to_del (Some row)]
               /\ Design.structurally_valid (<["storage_id" := VStr id]> body)
                  = true
               /\ validate_connectivity a pa pp = Ok a'
               /\ (written = EvDbCreate a' \/ written = EvDbUpdate id a')
               /\ alert_sources (snd (AlertSourceController.put id body w))
                  = <[key := row]> (alert_sources w)))
    /\ (Design.structurally_valid (<["storage_id" := VStr id]> body) = false ->
        snd (AlertSourceController.put id body w) = w)
    /\ (forall a pa pp e,
           In (EvConnectivity a pa pp) trace ->
           validate_connectivity a pa pp = Raise e ->
           trace = [EvConnectivity a pa pp]
           /\ alert_sources (snd (AlertSourceController.put id body w))
              = alert_sources w).
Proof.
  destruct (put_cases id body w)
    as [[e Hput]
       | (a0 & pa & pp & Hvalid & _ & _ & _ & _
          & [[e Hput]
            | (a' & written & key & row & to_del & Hconn & Hwritten
               & Hput)])];
    rewrite Hput; cbn [fst snd calls storages alert_sources log].
  - exists []. rewrite app_nil_r.
    split; [reflexivity|]. split; [reflexivity|].
    split; [left; eauto|]. split; [reflexivity|].
    intros a pa pp e' [].
  - exists [EvConnectivity a0 pa pp].
    split; [reflexivity|]. split; [reflexivity|].
    split; [right; left; exists a0, pa, pp; eauto|].
    split; [congruence|].
    intros a pa' pp' e' [[= <- <- <-] | []] _. auto.
  - exists [EvConnectivity a0 pa pp; written; EvSync to_del (Some row)].
    split; [reflexivity|]. split; [reflexivity|].
    assert (Hkind : written = EvDbCreate a' \/ written = EvDbUpdate id a').
    { destruct Hwritten as [(_ & _ & -> & _) | (old & _ & _ & -> & _)];
        auto. }
    split.
    { right; right. exists a0, pa, pp, a', written, to_del, row, key.
      auto. }
    split; [congruence|].
    intros a pa' pp' e' Hin Hraise. exfalso.
    destruct Hin as [[= <- <- <-] | [Hin | [Hin | []]]].
    + congruence.
    + destruct Hkind as [-> | ->]; discriminate.
    + discriminate.
Qed.

Lemma lookup_kept (row a0 a' old : dict) (k : string) :
  (row = a' \/ row = a' ∪ old) ->
  a' !! k = a0 !! k -> is_Some (a0 !! k) -> row !! k = a0 !! k.
Proof.
  intros Hrow Hkeep [v Hv]. rewrite Hv in *.
  destruct Hrow as [-> | ->]; [exact Hkeep|].
  now apply lookup_union_Some_l.
Qed.

(** C1 (as the code has it): after an accepted PUT, the persisted
    [auth_key] and [privacy_key] are null or [cryptor.encode] of the values
    of the request, while the persisted [community_string] is null or the
    value of the request as it is, not encoded; this holds when the
    connectivity check hands the record back with these fields and the
    storage id untouched. *)
Theorem C1_put_secrets (id : string) (body : dict) (w w' : world)
  (view : dict) :
  (forall a pa pp a' k,
      validate_connectivity a pa pp = Ok a' ->
      In k ["storage_id"; "auth_key"; "privacy_key"; "community_string"] ->
      a' !! k = a !! k) ->
  AlertSourceController.put id body w = (Ok view, w') ->
  exists row,
    alert_sources w' !! id = Some row
    /\ Design.encoded_or_null body row "auth_key"
    /\ Design.encoded_or_null body row "privacy_key"
    /\ Design.unchanged_or_null body row "community_string".
Proof.
  intros Hkeep Hput.
  destruct (put_cases id body w)
    as [[e Hraise]
       | (a0 & pa & pp & _ & Hid & Hauth & Hpriv & Hcs
          & [[e Hraise]
            | (a' & written & key & row & to_del & Hconn & Hwritten
               & Hdone)])];
    try congruence.
  rewrite Hdone in Hput. injection Hput as _ <-.
  cbn [alert_sources].
  assert (Hkey : key = id).
  { destruct Hwritten as [(_ & Hget & _) | (old & _ & -> & _)];
      [|reflexivity].
    unfold get, get_default in Hget.
    rewrite (Hkeep _ _ _ _ "storage_id" Hconn), Hid in Hget
      by (cbn; tauto).
    congruence. }
  subst key. exists row. split; [apply lookup_insert_eq|].
  assert (Hrow : exists old, row = a' \/ row = a' ∪ old).
  { destruct Hwritten as [(_ & _ & _ & -> & _) | (old & _ & _ & _ & -> & _)];
      [exists ∅ | exists old]; auto. }
  destruct Hrow as [old Hrow].
  assert (Hsame : forall k,
             In k ["auth_key"; "privacy_key"; "community_string"] ->
             is_Some (a0 !! k) -> row !! k = a0 !! k).
  { intros k Hk. apply (lookup_kept row a0 a' old k Hrow).
    apply (Hkeep _ _ _ _ k Hconn). cbn in Hk |- *. tauto. }
  unfold Design.encoded_or_null, Design.unchanged_or_null in *.
  repeat split.
  - destruct Hauth as [Hnull | (plain & enc & Hplain & Henc & Hstored)].
    + left. rewrite Hsame; [exact Hnull | cbn; tauto | now rewrite Hnull].
    + right. exists plain, enc. repeat split; trivial.
      rewrite Hsame; [exact Hstored | cbn; tauto | now rewrite Hstored].
  - destruct Hpriv as [Hnull | (plain & enc & Hplain & Henc & Hstored)].
    + left. rewrite Hsame; [exact Hnull | cbn; tauto | now rewrite Hnull].
    + right. exists plain, enc. repeat split; trivial.
      rewrite Hsame; [exact Hstored | cbn; tauto | now rewrite Hstored].
  - destruct Hcs as [Hnull | (plain & Hplain & Htruthy & Hstored)].
    + left. rewrite Hsame; [exact Hnull | cbn; tauto | now rewrite Hnull].
    + right. exists plain. repeat split; trivial.
      rewrite Hsame; [exact Hstored | cbn; tauto | now rewrite Hstored].
Qed.

(** C2 (as the code has it): [show] returns the view of the persisted
    record as it is stored and decodes nothing.  Decoding is what the
    separate helper [_decrypt_auth_key] does: of a record whose [auth_key]
    and [privacy_key] are as PUT leaves them it makes a record in which each
    of the two is null or, when [cryptor.decode] inverts [cryptor.encode],
    the value of the request again (an encoded key that is an empty object
    is left encoded). *)
Theorem C2_show_and_decrypt (id : string) (w : world) (given row : dict) :
  (forall x y, cryptor_encode x = Ok y -> cryptor_decode y = Ok x) ->
  alert_sources w !! id = Some row ->
  Design.encoded_or_null given row "auth_key" ->
  Design.encoded_or_null given row "privacy_key" ->
  AlertSourceController.show id w = (build_alert_source row, w)
  /\ exists decoded,
      AlertSourceController._decrypt_auth_key row = Ok decoded
      /\ (forall k,
             In k ["auth_key"; "privacy_key"] ->
             decoded !! k = Some VNone
             \/ exists plain encoded,
                 given !! k = Some plain
                 /\ cryptor_encode plain = Ok encoded
                 /\ decoded !! k
                    = Some (if truthy encoded then plain else encoded)).
Proof.
  intros Hround Hrow Hauth Hpriv. split.
  - unfold AlertSourceController.show, bind, db.alert_source_get, lift.
    rewrite Hrow. reflexivity.
  - unfold AlertSourceController._decrypt_auth_key, get_default.
    unfold Design.encoded_or_null in *.
    destruct Hauth as [Ha | (pa & ea & Hga & Hea & Ha)];
      destruct Hpriv as [Hp | (pp & ep & Hgp & Hep & Hp)];
      rewrite Ha, Hp; cbn [truthy rbind].
    + eexists. split; [reflexivity|].
      intros k [<- | [<- | []]]; auto.
    + destruct (truthy ep) eqn:Htp; cbn [rbind];
        [rewrite (Hround _ _ Hep); cbn [rbind]|];
        (eexists; split; [reflexivity|]);
        intros k [<- | [<- | []]].
      * left. now rewrite lookup_insert_ne.
      * right. exists pp, ep. rewrite Htp, lookup_insert_eq. auto.
      * now left.
      * right. exists pp, ep. rewrite Htp. auto.
    + destruct (truthy ea) eqn:Hta; cbn [rbind];
        [rewrite (Hround _ _ Hea); cbn [rbind]|];
        (eexists; split; [reflexivity|]);
        intros k [<- | [<- | []]].
      * right. exists pa, ea. rewrite Hta, lookup_insert_eq. auto.
      * left. now rewrite lookup_insert_ne.
      * right. exists pa, ea. rewrite Hta. auto.
      * now left.
    + destruct (truthy ea) eqn:Hta; cbn [rbind];
        [rewrite (Hround _ _ Hea); cbn [rbind]|];
        (destruct (truthy ep) eqn:Htp; cbn [rbind];
         [rewrite (Hround _ _ Hep); cbn [rbind]|]);
        (eexists; split; [reflexivity|]);
        intros k [<- | [<- | []]]; right.
      * exists pa, ea. rewrite Hta, lookup_insert_ne, lookup_insert_eq by done.
        auto.
      * exists pp, ep. rewrite Htp, lookup_insert_eq. auto.
      * exists pa, ea. rewrite Hta, lookup_insert_eq. auto.
      * exists pp, ep. rewrite Htp, lookup_insert_ne by done. auto.
      * exists pa, ea. rewrite Hta, lookup_insert_ne by done. auto.
      * exists pp, ep. rewrite Htp, lookup_insert_eq. auto.
      * exists pa, ea. rewrite Hta. auto.
      * exists pp, ep. rewrite Htp. auto.
Qed.

End Controller.

(** The second sample PUT, SNMPv3 with AuthPriv: both keys are stored
    encoded, the community string is null. *)
Lemma C1_put_secrets_witness :
  exists row,
    alert_sources Samples.world2 !! "S1" = Some row
    /\ @Design.encoded_or_null Samples.tag_cryptor Samples.v3_body row
         "auth_key"
    /\ @Design.encoded_or_null Samples.tag_cryptor Samples.v3_body row
         "privacy_key"
    /\ Design.unchanged_or_null Samples.v3_body row "community_string".
Proof.
  apply (@C1_put_secrets Samples.tag_cryptor Samples.reachable
           Samples.plain_view Samples.healthy_rpc
           "S1" Samples.v3_body Samples.world1 Samples.world2
           (Samples.returned
              (Samples.sample_put "S1" Samples.v3_body Samples.world1))).
  - intros a pa pp a' k Hok _. cbn in Hok. injection Hok as <-. reflexivity.
  - vm_compute. reflexivity.
Defined.

(** The first sample PUT, SNMPv2c with the community string [public], is
    accepted, and the persisted community string is [public] itself, not
    its encoding. *)
Lemma C1_community_string_stored_plain :
  Samples.v2c_body !! "community_string" = Some (VStr "public")
  /\ Samples.sample_put "S1" Samples.v2c_body Samples.world0
     = (Ok (Samples.stored "S1" Samples.world1), Samples.world1)
  /\ @cryptor_encode Samples.tag_cryptor (VStr "public")
     = Ok (VStr "enc:public")
  /\ Samples.stored "S1" Samples.world1 !! "community_string"
     = Some (VStr "public")
  /\ Samples.stored "S1" Samples.world1 !! "community_string"
     <> Some (VStr "enc:public").
Proof.
  conjuncts; try (vm_compute; reflexivity).
  vm_compute. discriminate.
Qed.

Lemma C2_show_and_decrypt_witness :
  @AlertSourceController.show Samples.plain_view "S1" Samples.world2
  = (@build_alert_source Samples.plain_view
       (Samples.stored "S1" Samples.world2),
     Samples.world2)
  /\ exists decoded,
      @AlertSourceController._decrypt_auth_key Samples.tag_cryptor
        (Samples.stored "S1" Samples.world2)
      = Ok decoded
      /\ (forall k,
             In k ["auth_key"; "privacy_key"] ->
             decoded !! k = Some VNone
             \/ exists plain encoded,
                 Samples.v3_body !! k = Some plain
                 /\ @cryptor_encode Samples.tag_cryptor plain = Ok encoded
                 /\ decoded !! k
                    = Some (if truthy encoded then plain else encoded)).
Proof.
  apply (@C2_show_and_decrypt Samples.tag_cryptor Samples.plain_view
           "S1" Samples.world2 Samples.v3_body
           (Samples.stored "S1" Samples.world2)).
  - intros x y. destruct x; cbn; try discriminate.
    intros [= <-]. reflexivity.
  - vm_compute. reflexivity.
  - right. exists (VStr "k1"), (VStr "enc:k1").
    conjuncts; vm_compute; reflexivity.
  - right. exists (VStr "k2"), (VStr "enc:k2").
    conjuncts; vm_compute; reflexivity.
Defined.

(** After the accepted SNMPv3 PUT with the keys [k1] and [k2], [show]
    returns the keys as they are stored, encoded, although decoding would
    give them back. *)
Lemma C2_show_returns_encoded :
  Samples.v3_body !! "auth_key" = Some (VStr "k1")
  /\ Samples.v3_body !! "privacy_key" = Some (VStr "k2")
  /\ Samples.sample_put "S1" Samples.v3_body Samples.world1
     = (Ok (Samples.stored "S1" Samples.world2), Samples.world2)
  /\ @cryptor_decode Samples.tag_cryptor (VStr "enc:k1") = Ok (VStr "k1")
  /\ exists view,
      @AlertSourceController.show Samples.plain_view "S1" Samples.world2
      = (Ok view, Samples.world2)
      /\ view !! "auth_key" = Some (VStr "enc:k1")
      /\ view !! "privacy_key" = Some (VStr "enc:k2")
      /\ view !! "auth_key" <> Some (VStr "k1")
      /\ view !! "privacy_key" <> Some (VStr "k2").
Proof.
  split; [vm_compute; reflexivity|].
  split; [vm_compute; reflexivity|].
  split; [vm_compute; reflexivity|].
  split; [vm_compute; reflexivity|].
  exists (Samples.stored "S1" Samples.world2).
  conjuncts; vm_compute; try reflexivity; discriminate.
Qed.

(** The scenario of the design document: a PUT with SNMPv2c persists the
    community string as given and nulls every SNMPv3 field, and syncs
    without an old configuration; a second PUT with SNMPv3 syncs with the
    old brief configuration of the first. *)
Example put_twice :
  (exists record,
      calls Samples.world1
      = [EvConnectivity record VNone VNone; EvDbCreate record;
         EvSync None (Some record)]
      /\ alert_sources Samples.world1 !! "S1" = Some record
      /\ record !! "community_string" = Some (VStr "public")
      /\ Forall (fun k => record !! k = Some VNone)
           AlertSourceController.SNMPv3_keys)
  /\ (exists record row,
         calls Samples.world2
         = (calls Samples.world1
            ++ [EvConnectivity record (VStr "k1") (VStr "k2");
                EvDbUpdate "S1" record;
                EvSync
                  (Some (list_to_map [("storage_id", VStr "S1");
                                      ("version", VStr "SNMPv2c")]))
                  (Some row)])%list
         /\ alert_sources Samples.world2 !! "S1" = Some row
         /\ row !! "community_string" = Some VNone
         /\ row !! "auth_key" = Some (VStr "enc:k1")).
Proof.
  split.
  - exists Samples.checked_v2c.
    do 3 (split; [vm_compute; reflexivity|]).
    unfold AlertSourceController.SNMPv3_keys.
    repeat (apply List.Forall_cons; [vm_compute; reflexivity|]).
    apply List.Forall_nil.
  - exists Samples.checked_v3, (Samples.stored "S1" Samples.world2).
    conjuncts; vm_compute; reflexivity.
Qed.

(** Deleting the sample alert source syncs first and deletes then; deleting
    one that does not exist raises and changes nothing. *)
Example delete_samples :
  @AlertSourceController.delete Samples.healthy_rpc "S1" Samples.world2
  = (Ok tt,
     {| storages := storages Samples.world2;
        alert_sources := ∅;
        calls := (calls Samples.world2
                  ++ [EvSync
                        (Some (list_to_map [("storage_id", VStr "S1");
                                            ("version", VStr "SNMPv3");
                                            ("username", VStr "u");
                                            ("engine_id", VStr "E1")]))
                        None;
                      EvDbDelete "S1"])%list |})
  /\ @AlertSourceController.delete Samples.healthy_rpc "S2" Samples.world2
     = (Raise (AlertSourceNotFound "S2"), Samples.world2).
Proof. split; vm_compute; reflexivity. Qed.

(** When the array cannot be reached, the PUT raises after the connectivity
    check: nothing is persisted and no sync is called. *)
Example put_unreachable :
  exists record,
    @AlertSourceController.put Samples.tag_cryptor Samples.unreachable
      Samples.plain_view Samples.healthy_rpc "S1" Samples.v3_body
      Samples.world0
    = (Raise (OtherError "SNMPConnectionFailed"),
       {| storages := storages Samples.world0;
          alert_sources := ∅;
          calls := [EvConnectivity record (VStr "k1") (VStr "k2")] |}).
Proof. exists Samples.checked_v3. vm_compute. reflexivity. Qed.

(** * Further properties of the alert handler *)

Section ListAlertsEdges.
Context `{TimeModule}.

Import constants.

(** Every run of [list_alerts], case by case. *)
Lemma list_alerts_outcome (self : AlertHandler.handler)
  (sent : list string) :
  AlertHandler.list_alerts self sent
  = match AlertHandler.sshclient self with
    | None =>
        (Raise (StorageBackendException
                  "Failed to get pool metrics from Hpe3parStor"), sent)
    | Some client =>
        (match run_command client "showalert -d" with
         | Ok (VStr text) =>
             match for_fold (split_lines text) AlertHandler.list_alerts_line
                     AlertHandler.initial_locals with
             | Ok l => Ok (AlertHandler.alert_list l)
             | Raise _ =>
                 Raise (StorageBackendException
                          "Failed to get pool metrics from Hpe3parStor")
             end
         | _ =>
             Raise (StorageBackendException
                      "Failed to get pool metrics from Hpe3parStor")
         end, (sent ++ ["showalert -d"])%list)
    end.
Proof.
  unfold AlertHandler.list_alerts, try_except, bind, doexec, lift, ret,
    raise.
  change AlertHandler.HPE3PAR_COMMAND_SHOWALERT with "showalert -d".
  destruct (AlertHandler.sshclient self) as [client|]; [|reflexivity].
  destruct (run_command client "showalert -d") as [v|e]; [|reflexivity].
  destruct v; cbn [AlertHandler.split_output]; try reflexivity.
  destruct (for_fold _ _ _); reflexivity.
Qed.

(** X1: [list_alerts] returns a list of alerts or raises
    [StorageBackendException] with the one reason
    ['Failed to get pool metrics from Hpe3parStor'], nothing else: a missing
    SSH client, a command that raises and an output that is not text all end
    in that exception (the inner ['Failed to ssh Hpe3parStor'] never leaves
    the call).  Without a client nothing is sent; with one, [showalert -d]
    is sent exactly once. *)
Theorem X1_list_alerts_errors (self : AlertHandler.handler)
  (sent : list string) :
  ((exists alerts, fst (AlertHandler.list_alerts self sent) = Ok alerts)
   \/ fst (AlertHandler.list_alerts self sent)
      = Raise (StorageBackendException
                 "Failed to get pool metrics from Hpe3parStor"))
  /\ (AlertHandler.sshclient self = None ->
      AlertHandler.list_alerts self sent
      = (Raise (StorageBackendException
                  "Failed to get pool metrics from Hpe3parStor"), sent))
  /\ (forall client,
         AlertHandler.sshclient self = Some client ->
         snd (AlertHandler.list_alerts self sent)
         = (sent ++ ["showalert -d"])%list
         /\ (forall e,
                run_command client "showalert -d" = Raise e ->
                fst (AlertHandler.list_alerts self sent)
                = Raise (StorageBackendException
                           "Failed to get pool metrics from Hpe3parStor"))
         /\ (forall v,
                run_command client "showalert -d" = Ok v ->
                (forall text, v <> VStr text) ->
                fst (AlertHandler.list_alerts self sent)
                = Raise (StorageBackendException
                           "Failed to get pool metrics from Hpe3parStor"))).
Proof.
  rewrite list_alerts_outcome.
  destruct (AlertHandler.sshclient self) as [client|];
    [|split; [right; reflexivity|]; split; [reflexivity|]; discriminate].
  cbn [fst snd].
  split.
  { destruct (run_command client "showalert -d") as [[ | text | | | | | | ]|];
      try (right; reflexivity).
    destruct (for_fold _ _ _); [left; eauto | right; reflexivity]. }
  split; [discriminate|].
  intros c [= <-]. split; [reflexivity|]. split.
  - intros e ->. reflexivity.
  - intros v -> Hnot. destruct v; try reflexivity.
    now destruct (Hnot s).
Qed.

(** Over lines that are blank or have the shape [Key: Value] the loop does
    not raise, and it adds one alert per [Component] line. *)
Lemma for_fold_field_lines (lines : list string) (l : AlertHandler.locals) :
  forallb Edge.field_line lines = true ->
  exists l',
    for_fold lines AlertHandler.list_alerts_line l = Ok l'
    /\ length (AlertHandler.alert_list l')
       = (length (AlertHandler.alert_list l)
          + length (List.filter Design.terminal_line lines))%nat.
Proof.
  revert l. induction lines as [|line lines IH]; intros l Hall.
  - exists l. cbn. split; [reflexivity | lia].
  - cbn [forallb] in Hall. apply andb_true_iff in Hall as [Hline Hall].
    cbn [for_fold List.filter].
    destruct (Design.terminal_line line) eqn:Hterm.
    + destruct (list_alerts_line_terminal l line Hterm) as (model & ->).
      cbn [rbind].
      destruct (IH (Design.flushed (AlertHandler.alert_list l ++ [model]))
                  Hall) as (l' & -> & Hlen).
      exists l'. split; [reflexivity|].
      rewrite Hlen. cbn [Design.flushed AlertHandler.alert_list length].
      rewrite length_app. cbn [length]. lia.
    + destruct (list_alerts_line_inner l line) as (l1 & -> & Hl1).
      { unfold Design.inner_line. fold (Edge.field_line line).
        now rewrite Hline, Hterm. }
      cbn [rbind]. destruct (IH l1 Hall) as (l' & -> & Hlen).
      exists l'. split; [reflexivity|]. rewrite Hlen, Hl1. lia.
Qed.

(** X2: when the transport is healthy and every line of the output is blank
    or has the shape [Key: Value], [list_alerts] does not raise and returns
    as many alerts as the output has [Component] lines; lines after the last
    [Component] line add nothing. *)
Theorem X2_list_alerts_count (client : SSHClient) (text : string)
  (sent : list string) :
  run_command client "showalert -d" = Ok (VStr text) ->
  forallb Edge.field_line (split_lines text) = true ->
  exists alerts,
    AlertHandler.list_alerts {| AlertHandler.sshclient := Some client |} sent
    = (Ok alerts, (sent ++ ["showalert -d"])%list)
    /\ length alerts
       = length (List.filter Design.terminal_line (split_lines text)).
Proof.
  intros Hrun Hlines.
  rewrite (list_alerts_healthy client text sent Hrun).
  destruct (for_fold_field_lines (split_lines text)
              AlertHandler.initial_locals Hlines) as (l' & -> & Hlen).
  exists (AlertHandler.alert_list l'). split; [reflexivity|].
  exact Hlen.
Qed.

(** The dictionary that the [Component] branch builds has the shape of a
    listed alert when the accumulators hold what the branches put there. *)
Lemma alert_model_shape (message_code event_type severity state alarm_id
  occur alert_message component : value) :
  Edge.is_text message_code -> Edge.is_text event_type ->
  Edge.is_listed_severity severity -> Edge.is_listed_category state ->
  Edge.is_text alarm_id -> Edge.is_time occur ->
  Edge.is_text alert_message -> Edge.is_text component ->
  Edge.listed_shape
    (list_to_map
       [("alert_id", message_code);
        ("alert_name", event_type);
        ("severity", severity);
        ("category", state);
        ("type", VEventType EventType.EQUIPMENT_ALARM);
        ("sequence_number", alarm_id);
        ("occur_time", occur);
        ("description", alert_message);
        ("resource_type", VResourceType DEFAULT_RESOURCE_TYPE);
        ("location", component)]).
Proof.
  intros [mc ->] [et ->] Hsev Hstate [aid ->] Hocc [msg ->] [comp ->].
  unfold Edge.listed_shape. split.
  { intros k. rewrite <- elem_of_dom, dom_list_to_map_L,
      elem_of_list_to_set, list_elem_of_In. reflexivity. }
  split; [reflexivity|]. split; [reflexivity|]. split.
  { intros k Hk. cbn in Hk.
    repeat (destruct Hk as [<- | Hk]; [eexists; reflexivity|]).
    destruct Hk. }
  split; [exists occur; split; [reflexivity | exact Hocc]|].
  split; [exists severity; split; [reflexivity | exact Hsev]|].
  exists state; split; [reflexivity | exact Hstate].
Qed.

Lemma cli_severity_listed (label : string) (current : value) :
  Edge.is_listed_severity current ->
  Edge.is_listed_severity (AlertHandler.cli_severity label current).
Proof.
  intros Hcur. unfold AlertHandler.cli_severity.
  repeat match goal with
    | |- context [if String.eqb ?a ?b then _ else _] =>
        destruct (String.eqb a b); [right; eexists; reflexivity|]
    end.
  exact Hcur.
Qed.

Lemma cli_state_listed (label : string) (current : value) :
  Edge.is_listed_category current ->
  Edge.is_listed_category (AlertHandler.cli_state label current).
Proof.
  intros Hcur. unfold AlertHandler.cli_state.
  destruct (String.eqb label "New"); [now right | exact Hcur].
Qed.

Lemma flushed_typed (alerts : list dict) :
  Edge.typed_locals (Design.flushed alerts).
Proof.
  unfold Edge.typed_locals, Edge.is_text, Edge.is_listed_severity,
    Edge.is_listed_category. cbn.
  repeat split; eauto.
Qed.

(** One round of the loop keeps the accumulators typed and the alerts in
    shape. *)
Lemma list_alerts_line_shape (l l' : AlertHandler.locals) (line : string) :
  Edge.typed_locals l ->
  Forall Edge.listed_shape (AlertHandler.alert_list l) ->
  AlertHandler.list_alerts_line l line = Ok l' ->
  Edge.typed_locals l'
  /\ Forall Edge.listed_shape (AlertHandler.alert_list l').
Proof.
  intros Htyped Hshape.
  destruct Htyped as (Hmc & Het & Hsev & Hst & Haid & Hocc & Hmsg & Hcomp).
  unfold AlertHandler.list_alerts_line.
  destruct (negb (String.eqb line ""));
    [|intros [= <-]; unfold Edge.typed_locals; auto 10].
  cbv zeta.
  cbn [AlertHandler.occur_time AlertHandler.set_component].
  destruct (index (alter remove_spaces 0%nat (split_once ": " line)) 0)
    as [key|]; cbn [rbind]; [|discriminate].
  repeat match goal with
    | |- context [if String.eqb key ?b then _ else _] =>
        destruct (String.eqb key b);
        [destruct (index (alter remove_spaces 0%nat (split_once ": " line)) 1)
           as [v|]; cbn [rbind]; [|discriminate]|]
    end;
    try (intros [= <-]; unfold Edge.typed_locals; cbn;
         repeat split; try assumption; try (now eexists);
         try (apply cli_severity_listed; assumption);
         try (apply cli_state_listed; assumption); fail).
  destruct (get_time_stamp_total (AlertHandler.occur_time l))
    as (occur & -> & Htime).
    cbn [rbind]. intros [= <-].
    split; [apply (flushed_typed [])|].
    cbn [AlertHandler.alert_list]. apply Forall_app. split; [exact Hshape|].
    constructor; [|constructor].
    apply alert_model_shape; trivial. now exists v.
Qed.

Lemma for_fold_shape (lines : list string) (l l' : AlertHandler.locals) :
  Edge.typed_locals l ->
  Forall Edge.listed_shape (AlertHandler.alert_list l) ->
  for_fold lines AlertHandler.list_alerts_line l = Ok l' ->
  Forall Edge.listed_shape (AlertHandler.alert_list l').
Proof.
  revert l. induction lines as [|line lines IH]; intros l Htyped Hshape.
  - now intros [= <-].
  - cbn [for_fold].
    destruct (AlertHandler.list_alerts_line l line) as [l1|] eqn:Hstep;
      cbn [rbind]; [|discriminate].
    destruct (list_alerts_line_shape l l1 line Htyped Hshape Hstep).
    now apply IH.
Qed.

(** X3: whatever the command prints, every alert that [list_alerts] returns
    has exactly the ten keys of the alert model, the type
    [EQUIPMENT_ALARM], the default resource type, text in [alert_id],
    [alert_name], [sequence_number], [description] and [location], an
    [occur_time] that is null or a number, a [severity] that is the empty
    string or a canonical severity, and a [category] that is the empty
    string or [FAULT]. *)
Theorem X3_list_alerts_shape (self : AlertHandler.handler)
  (sent sent' : list string) (alerts : list dict) :
  AlertHandler.list_alerts self sent = (Ok alerts, sent') ->
  Forall Edge.listed_shape alerts.
Proof.
  rewrite list_alerts_outcome.
  destruct (AlertHandler.sshclient self) as [client|]; [|discriminate].
  destruct (run_command client "showalert -d") as [[ | text | | | | | | ]|];
    try discriminate.
  destruct (for_fold (split_lines text) AlertHandler.list_alerts_line
              AlertHandler.initial_locals) as [l|] eqn:Hfold;
    [|discriminate].
  intros [= <- _].
  apply (for_fold_shape _ _ _ (flushed_typed []) (List.Forall_nil _) Hfold).
Qed.

(** *** Blanks in keys *)

Lemma partition_at_key (k v : string) :
  Edge.no_separator k = true ->
  partition_at ": " (k ++ ": " ++ v) = Some (k, v).
Proof.
  unfold Edge.no_separator.
  induction k as [|c k IH]; [reflexivity|].
  cbn [partition_at String.append].
  destruct (starts_with ": " (String c k)) eqn:Hhere; [discriminate|].
  destruct (partition_at ": " k) as [[]|] eqn:Hrest; [discriminate|].
  intros _.
  assert (Hstill : starts_with ": " (String c (k ++ ": " ++ v)) = false).
  { cbn [starts_with] in Hhere |- *.
    destruct (Ascii.eqb ":" c); [|reflexivity]. cbn [andb] in Hhere |- *.
    destruct k as [|b k']; [reflexivity|].
    cbn [String.append]. exact Hhere. }
  change (partition_at ": " (String c k ++ ": " ++ v))
    with (if starts_with ": " (String c (k ++ ": " ++ v))
          then Some (EmptyString,
                     drop_chars (String.length ": ")
                       (String c (k ++ ": " ++ v)))
          else match partition_at ": " (k ++ ": " ++ v) with
               | Some (before, after) => Some (String c before, after)
               | None => None
               end).
  rewrite Hstill. rewrite IH by reflexivity. reflexivity.
Qed.

Lemma remove_spaces_idempotent (s : string) :
  remove_spaces (remove_spaces s) = remove_spaces s.
Proof.
  induction s as [|c s IH]; [reflexivity|].
  cbn [remove_spaces].
  destruct (Ascii.eqb c space) eqn:Hc; [exact IH|].
  cbn [remove_spaces]. now rewrite Hc, IH.
Qed.

Lemma remove_spaces_length (s : string) :
  (String.length (remove_spaces s) <= String.length s)%nat.
Proof.
  induction s as [|c s IH]; [reflexivity|].
  cbn [remove_spaces]. destruct (Ascii.eqb c space); cbn; lia.
Qed.

Lemma remove_spaces_fixed (c : ascii) (s : string) :
  remove_spaces (String c s) = String c s ->
  Ascii.eqb c space = false /\ remove_spaces s = s.
Proof.
  cbn [remove_spaces]. destruct (Ascii.eqb c space).
  - intros Hshort. pose proof (remove_spaces_length s) as Hlen.
    rewrite Hshort in Hlen. cbn in Hlen. lia.
  - intros [= Hs]. auto.
Qed.

(** Text without blanks holds no [": "]. *)
Lemma no_blank_no_separator (s : string) :
  remove_spaces s = s -> partition_at ": " s = None.
Proof.
  induction s as [|c s IH]; [reflexivity|].
  intros [Hc Hs]%remove_spaces_fixed.
  assert (Hno : starts_with ": " (String c s) = false).
  { cbn [starts_with]. destruct (Ascii.eqb ":" c); [|reflexivity].
    cbn [andb]. destruct s as [|b s']; [reflexivity|].
    apply remove_spaces_fixed in Hs as [Hb _].
    change (Ascii.eqb " " b) with (Ascii.eqb space b).
    now rewrite Ascii.eqb_sym, Hb. }
  cbn [partition_at]. rewrite Hno, (IH Hs). reflexivity.
Qed.

Lemma no_separator_remove_spaces (s : string) :
  Edge.no_separator (remove_spaces s) = true.
Proof.
  unfold Edge.no_separator.
  now rewrite no_blank_no_separator by apply remove_spaces_idempotent.
Qed.

(** The blanks of a key do not matter to a round of the loop. *)
Lemma list_alerts_line_blanks (l : AlertHandler.locals) (k v : string) :
  Edge.no_separator k = true ->
  AlertHandler.list_alerts_line l (k ++ ": " ++ v)
  = AlertHandler.list_alerts_line l (remove_spaces k ++ ": " ++ v).
Proof.
  intros Hk. unfold AlertHandler.list_alerts_line, split_once.
  rewrite (partition_at_key k v Hk).
  rewrite (partition_at_key (remove_spaces k) v
             (no_separator_remove_spaces k)).
  assert (Hne : forall t, String.eqb (t ++ ": " ++ v) "" = false)
    by (intros [|c t]; reflexivity).
  rewrite !Hne. cbn [negb alter list_alter].
  now rewrite remove_spaces_idempotent.
Qed.

Lemma for_fold_blanks (lines lines' : list string)
  (l : AlertHandler.locals) :
  Forall2 Edge.same_but_blanks lines lines' ->
  for_fold lines AlertHandler.list_alerts_line l
  = for_fold lines' AlertHandler.list_alerts_line l.
Proof.
  intros Hrel. revert l.
  induction Hrel as [|line line' lines lines' Hline _ IH]; intros l;
    [reflexivity|].
  cbn [for_fold].
  assert (Hstep : AlertHandler.list_alerts_line l line
                  = AlertHandler.list_alerts_line l line').
  { destruct Hline as [-> | (k & v & Hk & -> & ->)]; [reflexivity|].
    now apply list_alerts_line_blanks. }
  rewrite Hstep.
  destruct (AlertHandler.list_alerts_line l line'); cbn [rbind]; auto.
Qed.

(** X4: blanks inside the key of a line do not matter, and a value is
    everything after the first [": "]: two outputs whose lines agree up to
    the blanks of their keys ([Message Code: x] and [MessageCode: x]) give
    the same result. *)
Theorem X4_list_alerts_key_blanks (client client' : SSHClient)
  (text text' : string) (sent : list string) :
  run_command client "showalert -d" = Ok (VStr text) ->
  run_command client' "showalert -d" = Ok (VStr text') ->
  Forall2 Edge.same_but_blanks (split_lines text) (split_lines text') ->
  AlertHandler.list_alerts {| AlertHandler.sshclient := Some client |} sent
  = AlertHandler.list_alerts {| AlertHandler.sshclient := Some client' |}
      sent.
Proof.
  intros Hrun Hrun' Hrel.
  rewrite (list_alerts_healthy client text sent Hrun).
  rewrite (list_alerts_healthy client' text' sent Hrun').
  now rewrite (for_fold_blanks _ _ _ Hrel).
Qed.

(** *** Labels that the listing does not know *)

Lemma cli_severity_unknown (label : string) (current : value) :
  (forall c, ~ In (label, c) Design.cli_severity_labels) ->
  AlertHandler.cli_severity label current = current.
Proof.
  intros Hnot. unfold AlertHandler.cli_severity.
  repeat match goal with
    | |- context [if String.eqb label ?b then _ else _] =>
        destruct (String.eqb_spec label b) as [-> | _];
        [exfalso; eapply Hnot; cbn; eauto 10|]
    end.
  reflexivity.
Qed.

Lemma list_alerts_line_unknown_label (l : AlertHandler.locals)
  (line : string) :
  Edge.unknown_label_line line ->
  AlertHandler.list_alerts_line l line = Ok l.
Proof.
  intros [(label & -> & Hnot) | (label & -> & Hnot)].
  - rewrite line_Severity, (cli_severity_unknown _ _ Hnot).
    now destruct l.
  - rewrite line_State. unfold AlertHandler.cli_state.
    apply String.eqb_neq in Hnot. rewrite Hnot. now destruct l.
Qed.

(** X5: a [Severity] line whose label is not one of the seven labels that
    the listing knows, and a [State] line whose state is not [New], change
    nothing: the call gives the result it gives for the output without that
    line, so the severity and the category of the record stay what they
    were before the line. *)
Theorem X5_list_alerts_unknown_label (client client' : SSHClient)
  (text text' : string) (before after : list string) (line : string)
  (sent : list string) :
  run_command client "showalert -d" = Ok (VStr text) ->
  run_command client' "showalert -d" = Ok (VStr text') ->
  split_lines text = (before ++ line :: after)%list ->
  split_lines text' = (before ++ after)%list ->
  Edge.unknown_label_line line ->
  AlertHandler.list_alerts {| AlertHandler.sshclient := Some client |} sent
  = AlertHandler.list_alerts {| AlertHandler.sshclient := Some client' |}
      sent.
Proof.
  intros Hrun Hrun' Hlines Hlines' Hunknown.
  rewrite (list_alerts_healthy client text sent Hrun).
  rewrite (list_alerts_healthy client' text' sent Hrun').
  rewrite Hlines, Hlines'.
  rewrite for_fold_skip; [reflexivity|].
  intros l. now apply list_alerts_line_unknown_label.
Qed.

End ListAlertsEdges.

Lemma X2_list_alerts_count_witness :
  exists alerts,
    @AlertHandler.list_alerts Samples.clock
      {| AlertHandler.sshclient :=
           Some (Samples.client_saying Samples.two_alerts_output) |} []
    = (Ok alerts, ([] ++ ["showalert -d"])%list)
    /\ length alerts
       = length (List.filter Design.terminal_line
                   (split_lines Samples.two_alerts_output)).
Proof.
  apply (@X2_list_alerts_count Samples.clock
           (Samples.client_saying Samples.two_alerts_output)
           Samples.two_alerts_output []);
    vm_compute; reflexivity.
Defined.

Lemma X3_list_alerts_shape_witness :
  Forall Edge.listed_shape (Samples.listed Samples.two_alerts_output).
Proof.
  apply (@X3_list_alerts_shape Samples.clock
           (Samples.handler_saying Samples.two_alerts_output)
           [] ["showalert -d"]).
  vm_compute. reflexivity.
Defined.

Lemma X4_list_alerts_key_blanks_witness :
  @AlertHandler.list_alerts Samples.clock
    {| AlertHandler.sshclient :=
         Some (Samples.client_saying MoreSamples.spaced_record_output) |} []
  = @AlertHandler.list_alerts Samples.clock
      {| AlertHandler.sshclient :=
           Some (Samples.client_saying MoreSamples.tight_record_output) |}
      [].
Proof.
  apply (@X4_list_alerts_key_blanks Samples.clock
           (Samples.client_saying MoreSamples.spaced_record_output)
           (Samples.client_saying MoreSamples.tight_record_output)
           MoreSamples.spaced_record_output MoreSamples.tight_record_output
           []).
  - reflexivity.
  - reflexivity.
  - change (Forall2 Edge.same_but_blanks
              ["Id: 1"; "Message Code: 0x2200de"; "Component: sw_pd:7"]
              ["Id: 1"; "MessageCode: 0x2200de"; "Component: sw_pd:7"]).
    constructor; [now left|].
    constructor; [|constructor; [now left | constructor]].
    right. exists "Message Code", "0x2200de".
    split; [reflexivity|]. split; reflexivity.
Defined.

Lemma X5_list_alerts_unknown_label_witness :
  @AlertHandler.list_alerts Samples.clock
    {| AlertHandler.sshclient :=
         Some (Samples.client_saying MoreSamples.bogus_severity_output) |} []
  = @AlertHandler.list_alerts Samples.clock
      {| AlertHandler.sshclient :=
           Some (Samples.client_saying MoreSamples.major_severity_output) |}
      [].
Proof.
  apply (@X5_list_alerts_unknown_label Samples.clock
           (Samples.client_saying MoreSamples.bogus_severity_output)
           (Samples.client_saying MoreSamples.major_severity_output)
           MoreSamples.bogus_severity_output
           MoreSamples.major_severity_output
           ["Id: 1"; "Severity: Major"] ["Component: sw_pd:7"]
           "Severity: Bogus" []).
  - reflexivity.
  - reflexivity.
  - vm_compute; reflexivity.
  - vm_compute; reflexivity.
  - left. exists "Bogus". split; [reflexivity|].
    intros c Hin. cbn in Hin.
    repeat (destruct Hin as [Hin | Hin]; [discriminate|]).
    destruct Hin.
Defined.

(** * Further properties of [parse_alert] *)

Section ParseAlertEdges.
Context `{TimeModule}.

Import constants.

(** The loop stops at the first element whose round raises. *)
Lemma for_in_first_raise {A : Type} (body : A -> result unit)
  (xs : list A) (e : exn) :
  for_in xs body = Raise e ->
  exists before x after,
    xs = (before ++ x :: after)%list
    /\ (forall y, In y before -> body y = Ok tt)
    /\ body x = Raise e.
Proof.
  induction xs as [|x xs IH]; cbn [for_in]; [discriminate|].
  destruct (body x) as [[]|e'] eqn:Hx; cbn [rbind].
  - intros Hrest. destruct (IH Hrest) as (before & y & after & -> & Hb & Hy).
    exists (x :: before), y, after. split; [reflexivity|].
    split; [|exact Hy].
    intros z [<- | Hz]; [exact Hx | now apply Hb].
  - intros [= ->]. exists [], x, xs. split; [reflexivity|].
    split; [intros y []|exact Hx].
Qed.

(** The rounds before the first one that raises do not count. *)
Lemma for_in_stops {A : Type} (body : A -> result unit)
  (before after : list A) (x : A) (e : exn) :
  (forall y, In y before -> body y = Ok tt) ->
  body x = Raise e ->
  for_in (before ++ x :: after) body = Raise e.
Proof.
  intros Hbefore Hx. induction before as [|y before IH]; cbn [app for_in].
  - now rewrite Hx.
  - rewrite (Hbefore y) by now left. cbn [rbind].
    apply IH. intros z Hz. apply Hbefore. now right.
Qed.

(** X6: [parse_alert] raises [InvalidInput] with a given message exactly
    when the message names the first mandatory attribute, in the order of
    declaration, that is missing or empty in the trap: every attribute
    declared before it is present, and attributes missing after it are not
    reported. *)
Theorem X6_parse_alert_first_missing (alert : dict) (msg : string) :
  AlertHandler.parse_alert alert = Raise (InvalidInput msg)
  <-> exists before attr after,
      ["component"; "details"; "nodeID"; "severity"; "timeOccurred"; "id";
       "messageCode"; "state"; "serialNumber"]
      = (before ++ attr :: after)%list
      /\ (forall a, In a before -> ~ Design.missing_or_empty alert a)
      /\ Design.missing_or_empty alert attr
      /\ msg = "Mandatory information " ++ attr
               ++ " missing in alert message. ".
Proof.
  change ["component"; "details"; "nodeID"; "severity"; "timeOccurred";
          "id"; "messageCode"; "state"; "serialNumber"]
    with AlertHandler._mandatory_alert_attributes.
  split.
  - intros Hraise.
    destruct (for_in AlertHandler._mandatory_alert_attributes
                (Design.mandatory_check alert)) as [[]|e'] eqn:Hfor.
    + pose proof (for_in_ok_inv _ _ Hfor) as Hall.
      destruct (parse_alert_present alert) as (model & Hok & _).
      { intros attr Hin. apply mandatory_check_ok, Hall, Hin. }
      congruence.
    + rewrite (parse_alert_missing alert e' Hfor) in Hraise.
      injection Hraise as ->.
      destruct (for_in_first_raise _ _ _ Hfor)
        as (before & attr & after & Hsplit & Hbefore & Hattr).
      apply mandatory_check_raise in Hattr as [Hfalsy [= ->]].
      exists before, attr, after. split; [exact Hsplit|].
      split; [|split; [now apply get_missing_or_empty | reflexivity]].
      intros a Ha Hmiss. apply get_missing_or_empty in Hmiss.
      apply Hbefore, mandatory_check_ok in Ha. congruence.
  - intros (before & attr & after & Hsplit & Hbefore & Hattr & ->).
    apply parse_alert_missing. rewrite Hsplit.
    apply for_in_stops.
    + intros a Ha. apply mandatory_check_ok.
      destruct (truthy (get alert a)) eqn:Htruthy; [reflexivity|].
      destruct (Hbefore a Ha). now apply get_missing_or_empty.
    + apply get_missing_or_empty in Hattr.
      unfold Design.mandatory_check. now rewrite Hattr.
Qed.

(** X7: a model that [parse_alert] returns comes from a trap with all nine
    mandatory fields in place; [alert_id] and [alert_name] are both the
    message code, [sequence_number] is the id, [description] the details,
    [location] the component, [occur_time] what [get_time_stamp] makes of
    [timeOccurred]; the type and the resource type are fixed; the model has
    a [clear_category], then [AUTOMATIC], exactly when the state is
    [autofixed]; [nodeID] and [serialNumber] are required and not copied:
    the model has no key besides these eleven. *)
Theorem X7_parse_alert_model (alert model : dict) :
  AlertHandler.parse_alert alert = Ok model ->
  (forall attr, In attr AlertHandler._mandatory_alert_attributes ->
                ~ Design.missing_or_empty alert attr)
  /\ model !! "alert_id" = Some (get alert "messageCode")
  /\ model !! "alert_name" = Some (get alert "messageCode")
  /\ model !! "sequence_number" = Some (get alert "id")
  /\ model !! "description" = Some (get alert "details")
  /\ model !! "location" = Some (get alert "component")
  /\ model !! "type" = Some (VEventType EventType.EQUIPMENT_ALARM)
  /\ model !! "resource_type" = Some (VResourceType DEFAULT_RESOURCE_TYPE)
  /\ (exists occur,
         AlertHandler.get_time_stamp (get alert "timeOccurred") = Ok occur
         /\ model !! "occur_time" = Some occur)
  /\ (get alert "state" = VStr "autofixed" ->
      model !! "clear_category" = Some (VClearType ClearType.AUTOMATIC))
  /\ (get alert "state" <> VStr "autofixed" ->
      model !! "clear_category" = None)
  /\ (forall k, is_Some (model !! k) ->
                In k (Edge.listed_keys ++ ["clear_category"])).
Proof.
  intros Hok.
  destruct (for_in AlertHandler._mandatory_alert_attributes
              (Design.mandatory_check alert)) as [[]|e'] eqn:Hfor;
    [|rewrite (parse_alert_missing alert e' Hfor) in Hok; discriminate].
  pose proof (for_in_ok_inv _ _ Hfor) as Hall.
  split.
  { intros attr Hin Hmiss. apply get_missing_or_empty in Hmiss.
    apply Hall, mandatory_check_ok in Hin. congruence. }
  revert Hok. unfold AlertHandler.parse_alert.
  fold (Design.mandatory_check alert). rewrite Hfor. cbn [rbind].
  destruct (get_time_stamp_total (get alert "timeOccurred"))
    as (occur & Hocc & _).
  rewrite Hocc. cbn [rbind rtry]. unfold py_eq.
  destruct (decide (get alert "state" = VStr "autofixed")) as [Hauto | Hnot].
  - rewrite bool_decide_eq_true_2 by exact Hauto. intros [= <-].
    do 7 (split; [reflexivity|]).
    split; [exists occur; split; reflexivity|].
    split; [reflexivity|]. split; [congruence|].
    intros k Hk.
    repeat (rewrite lookup_insert in Hk; case_decide;
            [subst k; cbn; repeat (first [left; reflexivity | right])|]).
    rewrite lookup_empty in Hk. now destruct Hk.
  - rewrite bool_decide_eq_false_2 by exact Hnot. intros [= <-].
    do 7 (split; [reflexivity|]).
    split; [exists occur; split; reflexivity|].
    split; [congruence|]. split; [reflexivity|].
    intros k Hk.
    repeat (rewrite lookup_insert in Hk; case_decide;
            [subst k; cbn; repeat (first [left; reflexivity | right])|]).
    rewrite lookup_empty in Hk. now destruct Hk.
Qed.

End ParseAlertEdges.

(** A trap without its details and its severity is refused for the details,
    which are declared first. *)
Lemma X6_parse_alert_first_missing_witness :
  @AlertHandler.parse_alert Samples.clock
    (delete "severity" (delete "details" Samples.sample_trap))
  = Raise (InvalidInput
             "Mandatory information details missing in alert message. ").
Proof.
  apply (proj2 (@X6_parse_alert_first_missing Samples.clock
                  (delete "severity" (delete "details" Samples.sample_trap))
                  "Mandatory information details missing in alert message. ")).
  exists ["component"], "details",
    ["nodeID"; "severity"; "timeOccurred"; "id"; "messageCode"; "state";
     "serialNumber"].
  split; [reflexivity|]. split; [|split; [|reflexivity]].
  - intros a [<- | []] [Hmiss | [Hmiss | [Hmiss | Hmiss]]];
      vm_compute in Hmiss; discriminate.
  - left. vm_compute. reflexivity.
Defined.

Lemma X7_parse_alert_model_witness :
  Samples.parsed Samples.sample_trap !! "alert_id"
  = Some (get Samples.sample_trap "messageCode")
  /\ Samples.parsed Samples.sample_trap !! "clear_category"
     = Some (VClearType constants.ClearType.AUTOMATIC).
Proof.
  destruct (@X7_parse_alert_model Samples.clock Samples.sample_trap
              (Samples.parsed Samples.sample_trap))
    as (_ & Hid & _ & _ & _ & _ & _ & _ & _ & Hauto & _).
  - vm_compute. reflexivity.
  - split; [exact Hid|]. apply Hauto. vm_compute. reflexivity.
Defined.

(** * Further properties of the alert-source controller *)

Section ControllerEdges.
Context `{Cryptor} `{SnmpValidator} `{AlertView} `{AlertAPI}.

Ltac untouched :=
  intros k Hk; rewrite ?lookup_insert_ne; [reflexivity|..];
  intros <-; apply Hk; cbn; tauto.

Ltac stored_field :=
  first
    [ reflexivity
    | now rewrite ?lookup_insert_ne by done
    | rewrite ?lookup_insert_ne by done; now rewrite lookup_insert_eq ].

(** The check of the input has one outcome for a request, whatever the
    state: it raises, or it passes a record on that is as [Edge.checked]
    says. *)
Lemma _input_check_uniform (a : dict) :
  exists outcome,
    (forall w, AlertSourceController._input_check a w
               = Edge.after_check outcome w)
    /\ match outcome with
       | Ok (a0, pa, pp) => Edge.checked a a0 pa pp
       | Raise _ => True
       end.
Proof.
  unfold AlertSourceController._input_check, Edge.after_check,
    bind, lift, raise, ret, AlertSourceController.check_connectivity.
  unfold Edge.checked, Edge.is_v3.
  destruct (get a "version") as [ | version | | | | | | ] eqn:Hversion;
    cbn [py_lower]; try (exists (Raise AttributeError); split; auto; fail).
  destruct (String.eqb (lower version) "snmpv3") eqn:Hv3.
  - apply String.eqb_eq in Hv3.
    destruct (validate_engine_id (get a "engine_id")) as [[]|e] eqn:Hengine;
      [|exists (Raise e); split; auto].
    destruct (truthy (get a "username")) eqn:Huser; cbn [negb orb];
      [|eexists (Raise _); split; [reflexivity | exact I]].
    destruct (truthy (get a "security_level")) eqn:Hlevel; cbn [negb orb];
      [|eexists (Raise _); split; [reflexivity | exact I]].
    destruct (truthy (get a "engine_id")) eqn:Hid; cbn [negb orb];
      [|eexists (Raise _); split; [reflexivity | exact I]].
    unfold Edge.checked_usm, Edge.passed_field, Edge.encoded_field.
    destruct (py_eq (get a "security_level") (VStr "AuthPriv")) eqn:Hpriv.
    + rewrite orb_true_r.
      destruct (truthy (get a "auth_protocol")) eqn:Hap; cbn [negb orb];
        [|eexists (Raise _); split; [reflexivity | exact I]].
      destruct (truthy (get a "auth_key")) eqn:Hak; cbn [negb orb];
        [|eexists (Raise _); split; [reflexivity | exact I]].
      destruct (truthy_get a "auth_key" Hak)
        as (plain & Hplain & Hgplain & -> & Htplain).
      destruct (cryptor_encode plain) as [enc|e] eqn:Henc;
        [|exists (Raise e); split; auto].
      rewrite !get_insert_ne by done.
      destruct (truthy (get a "privacy_protocol")) eqn:Hpp; cbn [negb orb];
        [|eexists (Raise _); split; [reflexivity | exact I]].
      destruct (truthy (get a "privacy_key")) eqn:Hpk; cbn [negb orb];
        [|eexists (Raise _); split; [reflexivity | exact I]].
      rewrite subscript_insert_ne by done.
      destruct (truthy_get a "privacy_key" Hpk)
        as (pplain & Hpplain & Hgpplain & -> & Htpplain).
      destruct (cryptor_encode pplain) as [penc|e] eqn:Hpenc;
        [|exists (Raise e); split; auto].
      eexists (Ok (_, _, _)). split; [reflexivity|].
      split; [untouched|]. split; [eauto|]. left. split; [eauto|].
      repeat split; try stored_field; eauto;
        eexists; (split; [eassumption | stored_field]).
    + rewrite orb_false_r.
      destruct (py_eq (get a "security_level") (VStr "AuthNoPriv"))
        eqn:Hnopriv.
      * destruct (truthy (get a "auth_protocol")) eqn:Hap; cbn [negb orb];
          [|eexists (Raise _); split; [reflexivity | exact I]].
        destruct (truthy (get a "auth_key")) eqn:Hak; cbn [negb orb];
          [|eexists (Raise _); split; [reflexivity | exact I]].
        destruct (truthy_get a "auth_key" Hak)
          as (plain & Hplain & Hgplain & -> & Htplain).
        destruct (cryptor_encode plain) as [enc|e] eqn:Henc;
          [|exists (Raise e); split; auto].
        eexists (Ok (_, _, _)). split; [reflexivity|].
        split; [untouched|]. split; [eauto|]. left. split; [eauto|].
        repeat split; try stored_field; eauto;
          eexists; (split; [eassumption | stored_field]).
      * eexists (Ok (_, _, _)). split; [reflexivity|].
        split; [untouched|]. split; [eauto|]. left. split; [eauto|].
        repeat split; try stored_field; eauto.
  - apply String.eqb_neq in Hv3.
    fold (get a "community_string").
    destruct (truthy (get a "community_string")) eqn:Hcs; cbn [negb];
      [|eexists (Raise _); split; [reflexivity | exact I]].
    eexists (Ok (_, _, _)). split; [reflexivity|].
    cbn [foldl AlertSourceController.SNMPv3_keys].
    split; [untouched|]. split; [eauto|]. right.
    split; [intros (v & [= <-] & Hv); contradiction|].
    unfold Edge.checked_community, Edge.passed_field.
    repeat split; try stored_field; eauto.
    intros k Hk. cbn in Hk.
    repeat (destruct Hk as [<- | Hk]; [stored_field|]). destruct Hk.
Qed.

(** Every PUT of a request, in any state: the state it leaves, and what
    has happened when it returns. *)
Lemma put_uniform (id : string) (body : dict) :
  exists outcome,
    match outcome with
    | Ok (a0, pa, pp) =>
        Edge.checked (<["storage_id" := VStr id]> body) a0 pa pp
    | Raise _ => True
    end
    /\ forall w,
        snd (AlertSourceController.put id body w)
        = Edge.put_state outcome id w
        /\ forall view,
            fst (AlertSourceController.put id body w) = Ok view ->
            bool_decide (id ∈ storages w) = true
            /\ exists a0 pa pp a' key row to_del db_call,
              outcome = Ok (a0, pa, pp)
              /\ validate_connectivity a0 pa pp = Ok a'
              /\ Edge.written id a' (alert_sources w)
                 = Some (key, row, to_del, db_call)
              /\ sync_answer to_del (Some row) = Ok tt
              /\ build_alert_source row = Ok view.
Proof.
  destruct (_input_check_uniform (<["storage_id" := VStr id]> body))
    as (outcome & Hrun & Hchecked).
  exists outcome. split; [exact Hchecked|]. intros w.
  unfold AlertSourceController.put, bind, db.storage_get, Edge.put_state.
  destruct (bool_decide (id ∈ storages w));
    [|split; [reflexivity | discriminate]].
  rewrite Hrun. unfold Edge.after_check.
  destruct outcome as [[[a0 pa] pp]|e];
    [|split; [reflexivity | discriminate]].
  destruct (validate_connectivity a0 pa pp) as [a'|e] eqn:Hconn;
    [|split; [reflexivity | discriminate]].
  rewrite _get_snmp_config_brief_cases. cbn [alert_sources log].
  unfold Edge.written.
  destruct (alert_sources w !! id) as [old|] eqn:Hold.
  - destruct (get old "version") eqn:Hversion;
      try (split; [reflexivity | discriminate]).
    unfold db.alert_source_update. cbn [alert_sources log]. rewrite Hold.
    unfold AlertSourceController.sync_snmp_config, lift, log,
      set_alert_sources.
    cbn [storages alert_sources calls].
    rewrite <- !app_assoc. cbn [app].
    destruct (sync_answer _ _) as [[]|] eqn:Hsync;
      (split; [reflexivity|]); [|discriminate].
    cbn [fst]. intros view Hview. split; [reflexivity|].
    exists a0, pa, pp, a'. do 4 eexists.
    split; [reflexivity|]. split; [exact Hconn|].
    split; [reflexivity|]. split; [exact Hsync | exact Hview].
  - unfold db.alert_source_create.
    destruct (get a' "storage_id") as [ | key | | | | | | ] eqn:Hkey;
      try (split; [reflexivity | discriminate]).
    cbn [alert_sources log].
    destruct (alert_sources w !! key) eqn:Hfree;
      [split; [reflexivity | discriminate]|].
    unfold AlertSourceController.sync_snmp_config, lift, log,
      set_alert_sources.
    cbn [storages alert_sources calls].
    rewrite <- !app_assoc. cbn [app].
    destruct (sync_answer _ _) as [[]|] eqn:Hsync;
      (split; [reflexivity|]); [|discriminate].
    cbn [fst]. intros view Hview. split; [reflexivity|].
    exists a0, pa, pp, a'. do 4 eexists.
    split; [reflexivity|]. split; [exact Hconn|].
    split; [rewrite Hkey, Hfree; reflexivity|].
    split; [exact Hsync | exact Hview].
Qed.

(** What is written is the record of the connectivity check, alone or
    over the old row, under the storage id of the request or, for a new
    row, under the storage id of the record. *)
Lemma written_cases (id key : string) (a' row : dict)
  (rows : gmap string dict) (to_del : option dict) (db_call : event) :
  Edge.written id a' rows = Some (key, row, to_del, db_call) ->
  (exists old,
      rows !! id = Some old /\ key = id /\ row = a' ∪ old
      /\ exists version, get old "version" = VStr version)
  \/ (rows !! id = None /\ get a' "storage_id" = VStr key
      /\ rows !! key = None /\ row = a').
Proof.
  unfold Edge.written.
  destruct (rows !! id) as [old|].
  - destruct (get old "version") eqn:Hversion; try discriminate.
    intros [= <- <- _ _]. left. exists old. eauto.
  - destruct (get a' "storage_id"); try discriminate.
    destruct (rows !! s) eqn:Hfree; try discriminate.
    intros [= <- <- _ _]. right. auto.
Qed.

(** X9: an accepted PUT leaves no secret of another version behind.  When
    the connectivity check hands the record back with the storage id, the
    community string and the SNMPv3 fields untouched, the persisted row of
    a PUT with a version other than SNMPv3 has every SNMPv3 field null and
    the community string of the request; the row of a PUT with SNMPv3 has a
    null community string, null privacy fields unless the level is
    AuthPriv, and null authentication fields unless the level is AuthPriv
    or AuthNoPriv.  This holds also when the row existed before with other
    values. *)
Theorem X9_put_nulls_other_version (id : string) (body : dict)
  (w w' : world) (view : dict) :
  (forall a pa pp a' k,
      validate_connectivity a pa pp = Ok a' ->
      In k ["storage_id"; "community_string"; "username"; "auth_key";
            "security_level"; "auth_protocol"; "privacy_protocol";
            "privacy_key"; "engine_id"] ->
      a' !! k = a !! k) ->
  AlertSourceController.put id body w = (Ok view, w') ->
  exists row,
    alert_sources w' !! id = Some row
    /\ ((Edge.is_v3 body
         /\ row !! "community_string" = Some VNone
         /\ (get body "security_level" <> VStr "AuthPriv" ->
             row !! "privacy_key" = Some VNone
             /\ row !! "privacy_protocol" = Some VNone)
         /\ (get body "security_level" <> VStr "AuthPriv" ->
             get body "security_level" <> VStr "AuthNoPriv" ->
             row !! "auth_key" = Some VNone
             /\ row !! "auth_protocol" = Some VNone))
        \/ (~ Edge.is_v3 body
            /\ (forall k, In k AlertSourceController.SNMPv3_keys ->
                          row !! k = Some VNone)
            /\ row !! "community_string" = body !! "community_string")).
Proof.
  intros Hkeep Hput.
  destruct (put_uniform id body) as (outcome & Hchecked & Hruns).
  destruct (Hruns w) as [Hstate Hview].
  rewrite Hput in Hstate, Hview. cbn [fst snd] in Hstate, Hview.
  destruct (Hview view eq_refl)
    as (Hstorage & a0 & pa & pp & a' & key & row & to_del & db_call
        & -> & Hconn & Hwritten & _ & _).
  unfold Edge.put_state in Hstate.
  rewrite Hstorage, Hconn, Hwritten in Hstate. subst w'.
  cbn [alert_sources].
  destruct Hchecked as (Hframe & _ & Hfields).
  assert (Hid : a0 !! "storage_id" = Some (VStr id)).
  { rewrite Hframe, lookup_insert_eq; [reflexivity|].
    cbn. intros Hin.
    repeat (destruct Hin as [Hin | Hin]; [discriminate|]).
    destruct Hin. }
  assert (Hrow : exists old, row = a' \/ row = a' ∪ old).
  { apply written_cases in Hwritten
      as [(old & _ & _ & -> & _) | (_ & _ & _ & ->)];
      [exists old | exists ∅]; auto. }
  assert (Hkey : key = id).
  { apply written_cases in Hwritten
      as [(old & _ & -> & _) | (_ & Hget & _)]; [reflexivity|].
    unfold get, get_default in Hget.
    rewrite (Hkeep _ _ _ _ "storage_id" Hconn), Hid in Hget
      by (cbn; tauto).
    congruence. }
  subst key. destruct Hrow as [old Hrow].
  assert (Hsame : forall k v,
             In k ["community_string"; "username"; "auth_key";
                   "security_level"; "auth_protocol"; "privacy_protocol";
                   "privacy_key"; "engine_id"] ->
             a0 !! k = Some v -> row !! k = Some v).
  { intros k v Hk Hv. rewrite <- Hv.
    apply (lookup_kept row a0 a' old k Hrow).
    - apply (Hkeep _ _ _ _ k Hconn). cbn in Hk |- *. tauto.
    - now rewrite Hv. }
  assert (Hv3 : Edge.is_v3 (<["storage_id" := VStr id]> body)
                <-> Edge.is_v3 body).
  { unfold Edge.is_v3. now rewrite get_insert_ne by done. }
  exists row. split; [apply lookup_insert_eq|].
  destruct Hfields as [[Hyes Hfields] | [Hno Hfields]].
  - left. split; [now apply Hv3|].
    destruct Hfields as (Hcs & _ & _ & _ & _ & Hlevel).
    rewrite get_insert_ne in Hlevel by done.
    split; [apply Hsame; [cbn; tauto | exact Hcs]|].
    unfold py_eq in Hlevel.
    destruct (decide (get body "security_level" = VStr "AuthPriv"))
      as [Hpriv | Hpriv].
    { split; intros; contradiction. }
    rewrite (bool_decide_eq_false_2 _ Hpriv) in Hlevel.
    destruct (decide (get body "security_level" = VStr "AuthNoPriv"))
      as [Hnopriv | Hnopriv].
    + rewrite (bool_decide_eq_true_2 _ Hnopriv) in Hlevel.
      destruct Hlevel as (_ & _ & _ & Hpp & Hpk).
      split; [|intros; contradiction].
      intros _. split; apply Hsame; trivial; cbn; tauto.
    + rewrite (bool_decide_eq_false_2 _ Hnopriv) in Hlevel.
      destruct Hlevel as (_ & _ & Hap & Hak & Hpp & Hpk).
      split; intros; split; apply Hsame; trivial; cbn; tauto.
  - right. split; [now rewrite <- Hv3|].
    destruct Hfields as (_ & _ & [Hcs Htruthy] & Hnull).
    split.
    + intros k Hk. apply Hsame; [|now apply Hnull].
      cbn in Hk |- *. tauto.
    + rewrite lookup_insert_ne in Hcs by done.
      destruct (truthy_get _ _ Htruthy) as (v & Hv & _).
      rewrite lookup_insert_ne in Hv by done.
      rewrite Hv. apply Hsame; [cbn; tauto|]. now rewrite Hcs.
Qed.

(** X11: when the check of the input reaches the connectivity check, the
    record it passes on is the request with the fields of the other version
    nulled and the keys encoded, as [Edge.checked] says, and the plain keys
    that go with it are the keys of the request (null when the security
    level does not use them): the plain text of a key leaves the check only
    as an argument of the connectivity check, never inside the record. *)
Theorem X11_input_check_record (a : dict) (w : world) (a0 : dict)
  (pa pp : value) :
  calls (snd (AlertSourceController._input_check a w))
  = (calls w ++ [EvConnectivity a0 pa pp])%list ->
  Edge.checked a a0 pa pp
  /\ AlertSourceController._input_check a w
     = (validate_connectivity a0 pa pp, log (EvConnectivity a0 pa pp) w).
Proof.
  destruct (_input_check_uniform a) as (outcome & Hrun & Hchecked).
  rewrite Hrun. unfold Edge.after_check.
  destruct outcome as [[[a0' pa'] pp']|e]; cbn [snd calls log].
  - intros [= <- <- <-]%app_inv_head. split; [exact Hchecked | reflexivity].
  - intros Hcalls. exfalso.
    apply (f_equal (@length event)) in Hcalls.
    rewrite length_app in Hcalls. cbn in Hcalls. lia.
Qed.

(** X12: an accepted PUT has made exactly three calls, in this order: the
    connectivity check, one database write (an update over the old row when
    the storage had one, a create otherwise) and one sync; the sync got the
    brief configuration of the old row (nothing when there was none)
    together with the row just written, and it succeeded; the response is
    the view of that row.  The connectivity check is taken to hand the
    storage id back untouched. *)
Theorem X12_put_sync_and_response (id : string) (body : dict)
  (w w' : world) (view : dict) :
  (forall a pa pp a',
      validate_connectivity a pa pp = Ok a' ->
      a' !! "storage_id" = a !! "storage_id") ->
  AlertSourceController.put id body w = (Ok view, w') ->
  exists a0 pa pp a' row db_call,
    calls w'
    = (calls w
       ++ [EvConnectivity a0 pa pp; db_call;
           EvSync (Design.brief_of <$> alert_sources w !! id) (Some row)])%list
    /\ validate_connectivity a0 pa pp = Ok a'
    /\ match alert_sources w !! id with
       | Some old => db_call = EvDbUpdate id a' /\ row = a' ∪ old
       | None => db_call = EvDbCreate a' /\ row = a'
       end
    /\ alert_sources w' = <[id := row]> (alert_sources w)
    /\ storages w' = storages w
    /\ sync_answer (Design.brief_of <$> alert_sources w !! id) (Some row)
       = Ok tt
    /\ build_alert_source row = Ok view.
Proof.
  intros Hkeep Hput.
  destruct (put_uniform id body) as (outcome & Hchecked & Hruns).
  destruct (Hruns w) as [Hstate Hview].
  rewrite Hput in Hstate, Hview. cbn [fst snd] in Hstate, Hview.
  destruct (Hview view eq_refl)
    as (Hstorage & a0 & pa & pp & a' & key & row & to_del & db_call
        & -> & Hconn & Hwritten & Hsync & Hbuild).
  unfold Edge.put_state in Hstate.
  rewrite Hstorage, Hconn, Hwritten in Hstate. subst w'.
  cbn [alert_sources calls storages].
  destruct Hchecked as (Hframe & _ & _).
  assert (Hid : a' !! "storage_id" = Some (VStr id)).
  { rewrite (Hkeep _ _ _ _ Hconn), Hframe, lookup_insert_eq; [reflexivity|].
    cbn. intros Hin.
    repeat (destruct Hin as [Hin | Hin]; [discriminate|]).
    destruct Hin. }
  exists a0, pa, pp, a', row, db_call.
  unfold Edge.written in Hwritten.
  destruct (alert_sources w !! id) as [old|] eqn:Hold;
    cbn [fmap option_fmap option_map].
  - destruct (get old "version"); try discriminate.
    injection Hwritten as <- <- <- <-. auto 10.
  - unfold get, get_default in Hwritten. rewrite Hid in Hwritten.
    rewrite Hold in Hwritten.
    injection Hwritten as <- <- <- <-. auto 10.
Qed.

End ControllerEdges.

(** X8: reading the brief configuration changes nothing and calls nothing;
    it yields nothing exactly when no row is persisted for the storage (a
    row whose version is not text makes it raise); a brief configuration
    holds the storage id and the version of the row, for SNMPv3 also its
    user name and engine id, and no other key: no key, protocol, security
    level or community string. *)
Theorem X8_brief_configuration (id : string) (w : world) :
  snd (AlertSourceController._get_snmp_config_brief id w) = w
  /\ (fst (AlertSourceController._get_snmp_config_brief id w) = Ok None
      <-> alert_sources w !! id = None)
  /\ (forall brief,
         fst (AlertSourceController._get_snmp_config_brief id w)
         = Ok (Some brief) ->
         exists row version,
           alert_sources w !! id = Some row
           /\ get row "version" = VStr version
           /\ brief !! "storage_id" = Some (get row "storage_id")
           /\ brief !! "version" = Some (VStr version)
           /\ (lower version = "snmpv3" ->
               brief !! "username" = Some (get row "username")
               /\ brief !! "engine_id" = Some (get row "engine_id"))
           /\ (lower version <> "snmpv3" ->
               brief !! "username" = None /\ brief !! "engine_id" = None)
           /\ (forall k, is_Some (brief !! k) ->
                         In k ["storage_id"; "version"; "username";
                               "engine_id"])).
Proof.
  rewrite _get_snmp_config_brief_cases. cbn [fst snd].
  split; [reflexivity|].
  destruct (alert_sources w !! id) as [row|]; [|split; [tauto | discriminate]].
  destruct (get row "version") as [ | version | | | | | | ] eqn:Hversion;
    try (split; [split; discriminate | discriminate]).
  split; [split; discriminate|].
  intros brief [= <-]. exists row, version.
  split; [reflexivity|]. split; [exact Hversion|].
  unfold Design.brief_of. rewrite Hversion.
  destruct (String.eqb_spec (lower version) "snmpv3") as [Hv3 | Hv3].
  - split; [reflexivity|]. split; [reflexivity|].
    split; [intros _; split; reflexivity|].
    split; [intros Hnot; contradiction|].
    intros k Hk. cbn [list_to_map foldr uncurry] in Hk.
    repeat (rewrite lookup_insert in Hk; case_decide;
            [subst k; cbn; repeat (first [left; reflexivity | right])|]).
    rewrite lookup_empty in Hk. now destruct Hk.
  - split; [reflexivity|]. split; [reflexivity|].
    split; [intros Hyes; contradiction|].
    split; [intros _; split; reflexivity|].
    intros k Hk. cbn [list_to_map foldr uncurry] in Hk.
    repeat (rewrite lookup_insert in Hk; case_decide;
            [subst k; cbn; repeat (first [left; reflexivity | right])|]).
    rewrite lookup_empty in Hk. now destruct Hk.
Qed.

Section Lifecycle.
Context `{AlertView} `{AlertAPI}.

(** X10: after a delete that succeeded the alert source is gone and every
    other row is as before: the sync has been called, then the row deleted;
    a [show] of the same storage raises [AlertSourceNotFound], and so does
    a second delete, which calls nothing. *)
Theorem X10_delete_then_gone (id : string) (w w' : world) :
  AlertSourceController.delete id w = (Ok tt, w') ->
  (exists row,
      alert_sources w !! id = Some row
      /\ w' = {| storages := storages w;
                 alert_sources := delete id (alert_sources w);
                 calls := (calls w
                           ++ [EvSync (Some (Design.brief_of row)) None;
                               EvDbDelete id])%list |})
  /\ alert_sources w' !! id = None
  /\ (forall other, other <> id ->
                    alert_sources w' !! other = alert_sources w !! other)
  /\ AlertSourceController.show id w' = (Raise (AlertSourceNotFound id), w')
  /\ AlertSourceController.delete id w'
     = (Raise (AlertSourceNotFound id), w').
Proof.
  intros Hdelete.
  assert (Hrow : exists row,
             alert_sources w !! id = Some row
             /\ w' = {| storages := storages w;
                        alert_sources := delete id (alert_sources w);
                        calls := (calls w
                                  ++ [EvSync (Some (Design.brief_of row))
                                        None;
                                      EvDbDelete id])%list |}).
  { revert Hdelete. unfold AlertSourceController.delete, bind.
    rewrite _get_snmp_config_brief_cases.
    destruct (alert_sources w !! id) as [row|] eqn:Hrow; [|discriminate].
    destruct (get row "version"); try discriminate.
    unfold AlertSourceController.sync_snmp_config, db.alert_source_delete.
    destruct (sync_answer _ _) as [[]|]; [|discriminate].
    cbn [alert_sources log]. rewrite Hrow.
    unfold log, set_alert_sources. cbn [storages alert_sources calls].
    rewrite <- app_assoc. intros [= <-]. exists row. auto. }
  split; [exact Hrow|].
  destruct Hrow as (row & Hrow & ->). cbn [alert_sources].
  assert (Hgone : delete id (alert_sources w) !! id = None)
    by apply lookup_delete_eq.
  split; [exact Hgone|].
  split; [intros other Hother; now apply lookup_delete_ne|].
  split.
  - unfold AlertSourceController.show, bind, db.alert_source_get.
    cbn [alert_sources]. now rewrite Hgone.
  - unfold AlertSourceController.delete, bind.
    rewrite _get_snmp_config_brief_cases. cbn [alert_sources].
    now rewrite Hgone.
Qed.

End Lifecycle.

Lemma X9_put_nulls_other_version_witness :
  exists row,
    alert_sources MoreSamples.world3 !! "S1" = Some row
    /\ ((Edge.is_v3 Samples.v2c_body
         /\ row !! "community_string" = Some VNone
         /\ (get Samples.v2c_body "security_level" <> VStr "AuthPriv" ->
             row !! "privacy_key" = Some VNone
             /\ row !! "privacy_protocol" = Some VNone)
         /\ (get Samples.v2c_body "security_level" <> VStr "AuthPriv" ->
             get Samples.v2c_body "security_level" <> VStr "AuthNoPriv" ->
             row !! "auth_key" = Some VNone
             /\ row !! "auth_protocol" = Some VNone))
        \/ (~ Edge.is_v3 Samples.v2c_body
            /\ (forall k, In k AlertSourceController.SNMPv3_keys ->
                          row !! k = Some VNone)
            /\ row !! "community_string"
               = Samples.v2c_body !! "community_string")).
Proof.
  apply (@X9_put_nulls_other_version Samples.tag_cryptor Samples.reachable
           Samples.plain_view Samples.healthy_rpc
           "S1" Samples.v2c_body Samples.world2 MoreSamples.world3
           (Samples.returned
              (Samples.sample_put "S1" Samples.v2c_body Samples.world2))).
  - intros a pa pp a' k Hok _. cbn in Hok. injection Hok as <-. reflexivity.
  - vm_compute. reflexivity.
Defined.

Lemma X10_delete_then_gone_witness :
  (exists row,
      alert_sources Samples.world2 !! "S1" = Some row
      /\ MoreSamples.world_deleted
         = {| storages := storages Samples.world2;
              alert_sources := delete "S1" (alert_sources Samples.world2);
              calls := (calls Samples.world2
                        ++ [EvSync (Some (Design.brief_of row)) None;
                            EvDbDelete "S1"])%list |})
  /\ alert_sources MoreSamples.world_deleted !! "S1" = None
  /\ (forall other, other <> "S1" ->
                    alert_sources MoreSamples.world_deleted !! other
                    = alert_sources Samples.world2 !! other)
  /\ @AlertSourceController.show Samples.plain_view "S1"
       MoreSamples.world_deleted
     = (Raise (AlertSourceNotFound "S1"), MoreSamples.world_deleted)
  /\ @AlertSourceController.delete Samples.healthy_rpc "S1"
       MoreSamples.world_deleted
     = (Raise (AlertSourceNotFound "S1"), MoreSamples.world_deleted).
Proof.
  apply (@X10_delete_then_gone Samples.plain_view Samples.healthy_rpc
           "S1" Samples.world2 MoreSamples.world_deleted).
  vm_compute. reflexivity.
Defined.

Lemma X11_input_check_record_witness :
  @Edge.checked Samples.tag_cryptor Samples.reachable
    MoreSamples.v3_request Samples.checked_v3 (VStr "k1") (VStr "k2")
  /\ @AlertSourceController._input_check Samples.tag_cryptor
       Samples.reachable MoreSamples.v3_request Samples.world0
     = (@validate_connectivity Samples.reachable Samples.checked_v3
          (VStr "k1") (VStr "k2"),
        log (EvConnectivity Samples.checked_v3 (VStr "k1") (VStr "k2"))
          Samples.world0).
Proof.
  apply (@X11_input_check_record Samples.tag_cryptor Samples.reachable
           MoreSamples.v3_request Samples.world0 Samples.checked_v3
           (VStr "k1") (VStr "k2")).
  vm_compute. reflexivity.
Defined.

Lemma X12_put_sync_and_response_witness :
  exists a0 pa pp a' row db_call,
    calls Samples.world2
    = (calls Samples.world1
       ++ [EvConnectivity a0 pa pp; db_call;
           EvSync (Design.brief_of <$> alert_sources Samples.world1 !! "S1")
             (Some row)])%list
    /\ @validate_connectivity Samples.reachable a0 pa pp = Ok a'
    /\ match alert_sources Samples.world1 !! "S1" with
       | Some old => db_call = EvDbUpdate "S1" a' /\ row = a' ∪ old
       | None => db_call = EvDbCreate a' /\ row = a'
       end
    /\ alert_sources Samples.world2
       = <["S1" := row]> (alert_sources Samples.world1)
    /\ storages Samples.world2 = storages Samples.world1
    /\ @sync_answer Samples.healthy_rpc
         (Design.brief_of <$> alert_sources Samples.world1 !! "S1")
         (Some row)
       = Ok tt
    /\ @build_alert_source Samples.plain_view row
       = Ok (Samples.returned
               (Samples.sample_put "S1" Samples.v3_body Samples.world1)).
Proof.
  apply (@X12_put_sync_and_response Samples.tag_cryptor Samples.reachable
           Samples.plain_view Samples.healthy_rpc
           "S1" Samples.v3_body Samples.world1 Samples.world2
           (Samples.returned
              (Samples.sample_put "S1" Samples.v3_body Samples.world1))).
  - intros a pa pp a' Hok. cbn in Hok. injection Hok as <-. reflexivity.
  - vm_compute. reflexivity.
Defined.
